(** * nut.ner.ner: the [train] and [predict] scripts of the NER tagger

    A shallow embedding of [src/nut/ner/ner.py].  The two scripts are
    straight-line orchestration code: they parse a command line, load or
    build a tagger object, hand it to the learner or to the prediction
    writer and persist the result.  Everything they call ([optparse], the
    feature modules, [compressed_load], [compressed_dump], the CoNLL
    reader, the tagger class, [open]) lives outside this file and is taken
    as a parameter of the development.

    Python objects are kept in a heap of attribute dictionaries, so that
    [model.V = aso_model.vocabulary] stores a reference and aliasing between
    the tagger and the ASO model is visible.  Each call to a collaborator
    and each print is recorded in a trace, which is what the ordering
    statements ("before", "only afterwards", "no retry") are about. *)

From Stdlib Require Import ZArith QArith.
From stdpp Require Import gmap strings list.

Local Close Scope Q_scope.
Local Open Scope Z_scope.
Local Open Scope string_scope.
Local Open Scope list_scope.

(** ** Values, objects and the heap *)

Definition loc := nat.

(** The Python values the scripts touch.  [VRef] is a reference to an
    object of the heap: feature functions, vocabularies, readers, taggers
    and ASO models are all such objects and are told apart by identity. *)
Inductive value :=
  | VNone
  | VBool (b : bool)
  | VInt (n : Z)
  | VStr (s : string)
  | VRef (l : loc).

#[global] Instance value_eq_dec : EqDecision value.
Proof. solve_decision. Defined.

(** An object is its attribute dictionary ([__dict__]). *)
Abbreviation obj := (gmap string value).
Abbreviation heap := (gmap loc obj).

(** [sys.stdout], [sys.stderr] and the file object that [open(path, ...)]
    returns. *)
Inductive stream :=
  | Stdout
  | Stderr
  | FileStream (path : string).

#[global] Instance stream_eq_dec : EqDecision stream.
Proof. solve_decision. Defined.

(** Exceptions.  [Error] is the class declared at the top of [ner.py]. *)
Inductive exn :=
  | ImportError
  | AttributeError
  | IOError
  | ValueError
  | ZeroDivisionError
  | Error (msg : string)
  | OtherError (name : string).

#[global] Instance exn_eq_dec : EqDecision exn.
Proof. solve_decision. Defined.

(** ** The option table of [train_args_parser] *)

Record options := {
  verbose : Z;
  feature_module : string;
  reg : Q;
  epochs : Z;
  minc : Z;
  max_unlabeled : Z;
  lang : string;
  shuffle : bool;
  stats : bool;
  use_eph : bool;
  (* [False] by default, otherwise the string given to [--aso] *)
  aso : option string
}.

(** The defaults registered by [train_args_parser]. *)
Definition train_args_parser : options :=
  {| verbose := 1;
     feature_module := "rr09";
     reg := (1 # 100000)%Q;
     epochs := 100;
     minc := 1;
     max_unlabeled := -1;
     lang := "en";
     shuffle := false;
     stats := false;
     use_eph := false;
     aso := None |}.

(** [options] with another value for [--min-count]. *)
Definition set_minc (k : Z) (o : options) : options :=
  {| verbose := verbose o; feature_module := feature_module o;
     reg := reg o; epochs := epochs o; minc := k;
     max_unlabeled := max_unlabeled o; lang := lang o;
     shuffle := shuffle o; stats := stats o; use_eph := use_eph o;
     aso := aso o |}.

(** ** Events and the world *)

Inductive event :=
  | EvParseArgs (cmdline : list string)
  | EvParserError (msg : string)
  | EvPrint (s : stream) (items : list value)
  | EvFlush (s : stream)
  | EvImport (import_path : string)
  | EvReader (path : string) (lang : value)
  | EvLoad (path : string)
  | EvNewTagger (fd hd lang : value) (verbose : Z)
  | EvSetAttr (o : value) (name : string) (v : value)
  | EvFeatureExtraction (model reader : value) (minc : Z) (use_eph : bool)
  | EvTrain (model reader : value) (reg : Q) (epochs : Z) (shuffle : bool)
  | EvDescribe (model : value) (k : Z)
  | EvIterInstances (model : value)
  | EvPrintAvgNnz (nnz n : Z)
  | EvDump (path : string) (model : value)
  | EvOpen (path mode : string)
  | EvTime
  | EvWritePredictions (reader model : value) (f : stream) (raw : bool)
  | EvPrintElapsed (s : stream)
  | EvClose (s : stream).

Record world := World {
  w_heap : heap;
  (* the events so far, oldest first *)
  w_trace : list event;
  (* the streams on which [close()] has been called *)
  w_closed : list stream
}.

Definition init_world (h : heap) : world :=
  {| w_heap := h; w_trace := []; w_closed := [] |}.

(** How a script ends: it returns, an exception leaves it uncaught, or
    [sys.exit(code)] was called. *)
Inductive outcome (A : Type) :=
  | Ret (a : A)
  | Raise (e : exn)
  | Exit (code : Z).
Arguments Ret {A} a.
Arguments Raise {A} e.
Arguments Exit {A} code.

(** The status the interpreter hands to [exit()]: 0 on a normal return,
    the argument of [sys.exit], 1 for an uncaught exception. *)
Definition exit_status {A} (o : outcome A) : Z :=
  match o with
  | Ret _ => 0
  | Raise _ => 1
  | Exit code => code
  end.

(** ** The script monad: state and three-way outcome *)

Definition M (A : Type) : Type := world -> outcome A * world.

#[global] Instance M_ret : MRet M := fun A a w => (Ret a, w).

#[global] Instance M_bind : MBind M := fun A B f m w =>
  match m w with
  | (Ret a, w') => f a w'
  | (Raise e, w') => (Raise e, w')
  | (Exit c, w') => (Exit c, w')
  end.

Definition raise {A} (e : exn) : M A := fun w => (Raise e, w).

Definition sys_exit {A} (code : Z) : M A := fun w => (Exit code, w).

Definition emit (ev : event) : M unit := fun w =>
  (Ret tt, {| w_heap := w_heap w;
              w_trace := w_trace w ++ [ev];
              w_closed := w_closed w |}).

Definition get_heap : M heap := fun w => (Ret (w_heap w), w).

Definition put_heap (h : heap) : M unit := fun w =>
  (Ret tt, {| w_heap := h; w_trace := w_trace w; w_closed := w_closed w |}).

(** A result of a collaborator, turned into a step of the script. *)
Definition lift {A} (r : exn + A) : M A :=
  match r with
  | inl e => raise e
  | inr a => mret a
  end.

(** A collaborator that reads and changes the heap. *)
Definition call {A} (f : heap -> exn + (heap * A)) : M A :=
  h ← get_heap;
  '(h', a) ← lift (f h);
  put_heap h';;
  mret a.

Definition call_ (f : heap -> exn + heap) : M unit :=
  h ← get_heap;
  h' ← lift (f h);
  put_heap h'.

(** [try: body except ImportError: handler] *)
Definition try_except_ImportError {A} (body handler : M A) : M A := fun w =>
  match body w with
  | (Raise ImportError, w') => handler w'
  | r => r
  end.

(** ** Attribute access *)

Definition getattr (h : heap) (o : value) (name : string) : option value :=
  match o with
  | VRef l => h !! l ≫= (.!! name)
  | _ => None
  end.

Definition setattr (h : heap) (o : value) (name : string) (v : value)
  : option heap :=
  match o with
  | VRef l =>
      match h !! l with
      | Some d => Some (<[l := <[name := v]> d]> h)
      | None => None
      end
  | _ => None
  end.

(** [o.name] *)
Definition get_attr (o : value) (name : string) : M value :=
  h ← get_heap;
  match getattr h o name with
  | Some v => mret v
  | None => raise AttributeError
  end.

(** [o.name = v] *)
Definition set_attr (o : value) (name : string) (v : value) : M unit :=
  h ← get_heap;
  match setattr h o name v with
  | Some h' => emit (EvSetAttr o name v);; put_heap h'
  | None => raise AttributeError
  end.

(** The address of the next object. *)
Definition new_loc (h : heap) : loc := fresh (dom h).

(** A constructor call: the instance is a new object of the heap. *)
Definition alloc (d : obj) : M value :=
  h ← get_heap;
  put_heap (<[new_loc h := d]> h);;
  mret (VRef (new_loc h)).

(** ** Python's [==] and [!=] on the values above

    [bool] is a subclass of [int], so [True == 1]; objects compare by
    identity. *)
Definition py_eq (a b : value) : bool :=
  match a, b with
  | VNone, VNone => true
  | VBool x, VBool y => Bool.eqb x y
  | VBool x, VInt n | VInt n, VBool x => Z.eqb (Z.b2z x) n
  | VInt m, VInt n => Z.eqb m n
  | VStr s, VStr t => String.eqb s t
  | VRef l, VRef k => Nat.eqb l k
  | _, _ => false
  end.

Definition py_ne (a b : value) : bool := negb (py_eq a b).

(** Truth value of [options.aso]: [False] and the empty string are false. *)
Definition aso_given (o : options) : option string :=
  match aso o with
  | Some EmptyString | None => None
  | Some path => Some path
  end.

(** ** Printing and closing *)

Definition stream_eqb (a b : stream) : bool :=
  match a, b with
  | Stdout, Stdout | Stderr, Stderr => true
  | FileStream p, FileStream q => String.eqb p q
  | _, _ => false
  end.

Definition is_closed (s : stream) (w : world) : bool :=
  existsb (stream_eqb s) (w_closed w).

(** A print statement on [s] that shows as [ev] in the trace: writing to a
    closed file object raises [ValueError]. *)
Definition printing (s : stream) (ev : event) : M unit := fun w =>
  if is_closed s w then (Raise ValueError, w)
  else emit ev w.

(** [print >> s, items] *)
Definition print_to (s : stream) (items : list value) : M unit :=
  printing s (EvPrint s items).

Definition print (items : list value) : M unit := print_to Stdout items.

Definition flush (s : stream) : M unit := fun w =>
  if is_closed s w then (Raise ValueError, w)
  else emit (EvFlush s) w.

(** [f.close()] *)
Definition close (s : stream) : M unit := fun w =>
  (Ret tt, {| w_heap := w_heap w;
              w_trace := w_trace w ++ [EvClose s];
              w_closed := s :: w_closed w |}).

Definition nl : string := String (Ascii.ascii_of_nat 10) EmptyString.
Definition tab : string := String (Ascii.ascii_of_nat 9) EmptyString.

(** [s * n] on strings *)
Fixpoint str_repeat (s : string) (n : nat) : string :=
  match n with
  | O => EmptyString
  | S n' => s +:+ str_repeat s n'
  end.

(** The attributes that [train] reads from an ASO model. *)
Record aso_fields := {
  a_fd : value;
  a_hd : value;
  a_lang : value;
  a_use_eph : value;
  a_minc : value;
  a_vocabulary : value;
  a_tags : value;
  a_fidx_map : value;
  a_tidx_map : value;
  a_tag_map : value
}.

(** ** A small installation

    One concrete choice of collaborators, on which the scripts can be run:
    a feature module [rr09], a pickled ASO model [aso.model] trained for
    English with EPH, a pickled tagger [ner.model], and a parser that
    knows the flags and the string-valued options of [train_args_parser]. *)

Module Demo.

Definition set_feature_module (x : string) (o : options) : options :=
  {| verbose := verbose o; feature_module := x; reg := reg o;
     epochs := epochs o; minc := minc o; max_unlabeled := max_unlabeled o;
     lang := lang o; shuffle := shuffle o; stats := stats o;
     use_eph := use_eph o; aso := aso o |}.

Definition set_lang (x : string) (o : options) : options :=
  {| verbose := verbose o; feature_module := feature_module o;
     reg := reg o; epochs := epochs o; minc := minc o;
     max_unlabeled := max_unlabeled o; lang := x; shuffle := shuffle o;
     stats := stats o; use_eph := use_eph o; aso := aso o |}.

Definition set_shuffle (o : options) : options :=
  {| verbose := verbose o; feature_module := feature_module o;
     reg := reg o; epochs := epochs o; minc := minc o;
     max_unlabeled := max_unlabeled o; lang := lang o; shuffle := true;
     stats := stats o; use_eph := use_eph o; aso := aso o |}.

Definition set_stats (o : options) : options :=
  {| verbose := verbose o; feature_module := feature_module o;
     reg := reg o; epochs := epochs o; minc := minc o;
     max_unlabeled := max_unlabeled o; lang := lang o;
     shuffle := shuffle o; stats := true; use_eph := use_eph o;
     aso := aso o |}.

Definition set_use_eph (o : options) : options :=
  {| verbose := verbose o; feature_module := feature_module o;
     reg := reg o; epochs := epochs o; minc := minc o;
     max_unlabeled := max_unlabeled o; lang := lang o;
     shuffle := shuffle o; stats := stats o; use_eph := true;
     aso := aso o |}.

Definition set_aso (x : string) (o : options) : options :=
  {| verbose := verbose o; feature_module := feature_module o;
     reg := reg o; epochs := epochs o; minc := minc o;
     max_unlabeled := max_unlabeled o; lang := lang o;
     shuffle := shuffle o; stats := stats o; use_eph := use_eph o;
     aso := Some x |}.

(** Left to right; an option that lacks its value and an unknown option
    end the process with status 2, as [optparse] does. *)
Fixpoint parse (o : options) (positional args : list string)
  : Z + (options * list string) :=
  match args with
  | [] => inr (o, rev positional)
  | a :: rest =>
      if String.eqb a "--eph" then parse (set_use_eph o) positional rest
      else if String.eqb a "--shuffle" then
        parse (set_shuffle o) positional rest
      else if String.eqb a "--stats" then
        parse (set_stats o) positional rest
      else if String.eqb a "--aso" then
        match rest with
        | x :: rest' => parse (set_aso x o) positional rest'
        | [] => inl 2
        end
      else if String.eqb a "-l" || String.eqb a "--lang" then
        match rest with
        | x :: rest' => parse (set_lang x o) positional rest'
        | [] => inl 2
        end
      else if String.eqb a "-f" || String.eqb a "--feature-module" then
        match rest with
        | x :: rest' => parse (set_feature_module x o) positional rest'
        | [] => inl 2
        end
      else if String.prefix "-" a then inl 2
      else parse o (a :: positional) rest
  end.

Definition parse_args (defaults : options) (cmdline : list string)
  : Z + (options * list string) :=
  parse defaults [] cmdline.

(** The same parser with another default for [--min-count]. *)
Definition parse_args_minc (k : Z) (defaults : options)
  (cmdline : list string) : Z + (options * list string) :=
  parse (set_minc k defaults) [] cmdline.

(** The function objects [fd] and [hd] of [rr09]. *)
Definition heap0 : heap := {[ 0%nat := ∅; 1%nat := ∅ ]}.

Definition rr09 : obj := {[ "fd" := VRef 0%nat; "hd" := VRef 1%nat ]}.

Definition py_import (import_path : string) : exn + obj :=
  if String.eqb import_path "nut.ner.features.rr09" then inr rr09
  else inl ImportError.

(** An installation whose [rr09] provides other functions. *)
Definition rr09_other : obj :=
  {[ "fd" := VRef 1%nat; "hd" := VRef 0%nat ]}.

Definition py_import_other (import_path : string) : exn + obj :=
  if String.eqb import_path "nut.ner.features.rr09" then inr rr09_other
  else inl ImportError.

(** An installation without feature modules. *)
Definition py_import_none (import_path : string) : exn + obj :=
  inl ImportError.

Definition reader_dict (path : string) (lang : value) : obj :=
  {[ "path" := VStr path; "lang" := lang ]}.

Definition Conll03Reader (path : string) (lang : value) : exn + obj :=
  if String.eqb path "missing.conll" then inl IOError
  else inr (reader_dict path lang).

(** Unpickling [aso.model] creates the vocabulary, the tag set, the three
    index maps and the ASO model that holds them. *)
Definition aso_objects (h : heap) : heap * aso_fields :=
  let v := new_loc h in
  let h := <[v := ∅]> h in
  let t := new_loc h in
  let h := <[t := ∅]> h in
  let fi := new_loc h in
  let h := <[fi := ∅]> h in
  let ti := new_loc h in
  let h := <[ti := ∅]> h in
  let tm := new_loc h in
  let h := <[tm := ∅]> h in
  (h,
   {| a_fd := VRef 0%nat; a_hd := VRef 1%nat; a_lang := VStr "en";
      a_use_eph := VBool true; a_minc := VInt 2;
      a_vocabulary := VRef v; a_tags := VRef t; a_fidx_map := VRef fi;
      a_tidx_map := VRef ti; a_tag_map := VRef tm |}).

Definition aso_dict (a : aso_fields) : obj :=
  {[ "fd" := a_fd a; "hd" := a_hd a; "lang" := a_lang a;
     "use_eph" := a_use_eph a; "minc" := a_minc a;
     "vocabulary" := a_vocabulary a; "tags" := a_tags a;
     "fidx_map" := a_fidx_map a; "tidx_map" := a_tidx_map a;
     "tag_map" := a_tag_map a ]}.

Definition load_aso (h : heap) : heap * value :=
  let '(h', a) := aso_objects h in
  (<[new_loc h' := aso_dict a]> h', VRef (new_loc h')).

Definition load_tagger (h : heap) : heap * value :=
  (<[new_loc h := {[ "lang" := VStr "en"; "use_eph" := VBool true;
                     "use_aso" := VBool false ]}]> h,
   VRef (new_loc h)).

(** The heap once the reader on [train.conll] is built. *)
Definition heap1 : heap :=
  <[new_loc heap0 := reader_dict "train.conll" (VStr "en")]> heap0.

Definition compressed_load (path : string) (h : heap)
  : exn + (heap * value) :=
  if String.eqb path "aso.model" then inr (load_aso h)
  else if String.eqb path "ner.model" then inr (load_tagger h)
  else inl IOError.

Definition compressed_dump (path : string) (model : value) (h : heap)
  : exn + unit :=
  if String.eqb path "/" then inl IOError else inr tt.

Definition tagger_dict (fd hd lang : value) (verbose : Z) : obj :=
  {[ "fd" := fd; "hd" := hd; "lang" := lang; "verbose" := VInt verbose ]}.

Definition GreedySVMTagger (fd hd lang : value) (verbose : Z) : exn + obj :=
  inr (tagger_dict fd hd lang verbose).

Definition feature_extraction (model reader : value) (minc : Z)
  (use_eph : bool) (h : heap) : exn + heap :=
  match setattr h model "minc" (VInt minc) with
  | Some h' =>
      match setattr h' model "use_eph" (VBool use_eph) with
      | Some h'' => inr h''
      | None => inl AttributeError
      end
  | None => inl AttributeError
  end.

Definition tagger_train (model reader : value) (reg : Q) (epochs : Z)
  (shuffle : bool) (h : heap) : exn + heap :=
  match setattr h model "epochs" (VInt epochs) with
  | Some h' => inr h'
  | None => inl AttributeError
  end.

Definition describe (model : value) (k : Z) (h : heap) : exn + heap :=
  inr h.

Definition iterinstances (model : value) (h : heap) : exn + list Z :=
  inr [3; 5].

Definition dataset_n (model : value) (h : heap) : exn + Z := inr 2.

Definition py_open (path mode : string) : exn + unit :=
  if String.eqb path "/" then inl IOError else inr tt.

Definition write_sent_predictions (reader model : value) (f : stream)
  (raw : bool) (h : heap) : exn + heap :=
  inr h.

(** Variants of the installation for the runs that fail. *)

(** An installation whose [rr09] does not compile. *)
Definition py_import_broken (import_path : string) : exn + obj :=
  inl (OtherError "SyntaxError").

(** An installation whose [rr09] defines [fd] only. *)
Definition rr09_partial : obj := {[ "fd" := VRef 0%nat ]}.

Definition py_import_partial (import_path : string) : exn + obj :=
  if String.eqb import_path "nut.ner.features.rr09" then inr rr09_partial
  else inl ImportError.

(** A pickle of an ASO model that has lost its tag set. *)
Definition load_aso_truncated (h : heap) : heap * value :=
  let '(h', a) := aso_objects h in
  (<[new_loc h' := delete "tags" (aso_dict a)]> h', VRef (new_loc h')).

Definition compressed_load_truncated (path : string) (h : heap)
  : exn + (heap * value) :=
  if String.eqb path "aso.model" then inr (load_aso_truncated h)
  else inl IOError.

(** A learner that runs out of memory. *)
Definition tagger_train_failing (model reader : value) (reg : Q)
  (epochs : Z) (shuffle : bool) (h : heap) : exn + heap :=
  inl (OtherError "MemoryError").

(** A tagger whose dataset is empty. *)
Definition iterinstances_empty (model : value) (h : heap) : exn + list Z :=
  inr [].

Definition dataset_n_empty (model : value) (h : heap) : exn + Z := inr 0.

(** A writer on a full disk. *)
Definition write_failing (reader model : value) (f : stream) (raw : bool)
  (h : heap) : exn + heap :=
  inl IOError.

End Demo.
(** ** Predicates on events used in the statements *)

(** The script wrote nothing of the learner's into the trace: no feature
    extraction and no training step. *)
Definition is_training_step (ev : event) : bool :=
  match ev with
  | EvFeatureExtraction _ _ _ _ | EvTrain _ _ _ _ _ => true
  | _ => false
  end.

Definition is_set_attr (ev : event) : bool :=
  match ev with
  | EvSetAttr _ _ _ => true
  | _ => false
  end.

Definition is_load (ev : event) : bool :=
  match ev with
  | EvLoad _ => true
  | _ => false
  end.

Definition is_open (ev : event) : bool :=
  match ev with
  | EvOpen _ _ => true
  | _ => false
  end.

(** Events that construct a tagger, read the corpus or start the learner. *)
Definition is_model_work (ev : event) : bool :=
  match ev with
  | EvNewTagger _ _ _ _ | EvReader _ _ | EvLoad _
  | EvFeatureExtraction _ _ _ _ | EvTrain _ _ _ _ _ => true
  | _ => false
  end.


(** The stream that [pred_file] names. *)
Definition stream_of (pred_file : string) : stream :=
  if String.eqb pred_file "-" then Stdout else FileStream pred_file.

(** Predictions go to the stream that [pred_file] names, and the only file
    opened is [pred_file], for writing, when it is not ["-"]. *)
Definition writes_to (pred_file : string) (ev : event) : Prop :=
  match ev with
  | EvWritePredictions _ _ f _ => f = stream_of pred_file
  | EvOpen path mode =>
      path = pred_file /\ mode = "w+" /\ String.eqb pred_file "-" = false
  | _ => True
  end.

(** [m] extends the trace, and only by events that satisfy [P]. *)
Definition emits_only {A} (P : event -> Prop) (m : M A) : Prop :=
  forall w, exists l, w_trace (m w).2 = w_trace w ++ l /\ Forall P l.

(** Whatever [m] returns satisfies [Q]. *)
Definition returns {A} (Q : A -> Prop) (m : M A) : Prop :=
  forall w, match (m w).1 with Ret a => Q a | _ => True end.

(** [aso_model] is an object of [h] with these attributes. *)
Definition has_aso_fields (h : heap) (aso_model : value) (a : aso_fields)
  : Prop :=
  getattr h aso_model "fd" = Some (a_fd a) /\
  getattr h aso_model "hd" = Some (a_hd a) /\
  getattr h aso_model "lang" = Some (a_lang a) /\
  getattr h aso_model "use_eph" = Some (a_use_eph a) /\
  getattr h aso_model "minc" = Some (a_minc a) /\
  getattr h aso_model "vocabulary" = Some (a_vocabulary a) /\
  getattr h aso_model "tags" = Some (a_tags a) /\
  getattr h aso_model "fidx_map" = Some (a_fidx_map a) /\
  getattr h aso_model "tidx_map" = Some (a_tidx_map a) /\
  getattr h aso_model "tag_map" = Some (a_tag_map a).

(** The tagger object once lines 140-150 have run on the fresh instance
    [d]. *)
Definition bound_tagger (d : obj) (aso_model : value) (a : aso_fields) : obj :=
  <["aso_model" := aso_model]>
  (<["use_aso" := VBool true]>
  (<["tag_map" := a_tag_map a]>
  (<["tidx_map" := a_tidx_map a]>
  (<["fidx_map" := a_fidx_map a]>
  (<["minc" := a_minc a]>
  (<["use_eph" := a_use_eph a]>
  (<["T" := a_tags a]>
  (<["V" := a_vocabulary a]> d)))))))).

(** The assignments of lines 140-150, as the trace shows them. *)
Definition binding_events (model aso_model : value) (a : aso_fields)
  : list event :=
  [EvSetAttr model "V" (a_vocabulary a);
   EvSetAttr model "T" (a_tags a);
   EvSetAttr model "use_eph" (a_use_eph a);
   EvSetAttr model "minc" (a_minc a);
   EvSetAttr model "fidx_map" (a_fidx_map a);
   EvSetAttr model "tidx_map" (a_tidx_map a);
   EvSetAttr model "tag_map" (a_tag_map a);
   EvSetAttr model "use_aso" (VBool true);
   EvSetAttr model "aso_model" aso_model].

(** The messages of the two compatibility checks. *)
Definition use_eph_mismatch : exn :=
  Error "options.use_eph != aso_model.use_eph.".
Definition lang_mismatch : exn :=
  Error "options.lang != aso_model.lang.".

(** What the ASO branch has written when the tagger has been built from
    the ASO model, before any assignment to it. *)
Definition aso_prologue (options : options) (path : string)
  (fd hd lang : value) : list event :=
  [EvPrint Stdout [VStr "Loading ASO model..."];
   EvFlush Stdout;
   EvLoad path;
   EvPrint Stdout [VStr "[done]"];
   EvNewTagger fd hd lang (verbose options)].

(** What [train] has written when it reaches line 125. *)
Definition front_events (options : options) (cmdline : list string)
  (f_train : string) : list event :=
  [EvParseArgs cmdline;
   EvImport ("nut.ner.features." +:+ feature_module options);
   EvReader f_train (VStr (lang options))].

(** ** The scripts *)

Section Scripts.

(** *** Collaborators *)

(** [parser.parse_args()]: [inl code] when [optparse] itself ends the
    process (a malformed option, [--help], [--version]), otherwise the
    option values and the positional arguments. *)
Variable parse_args : options -> list string -> Z + (options * list string).

(** [__import__(import_path, fromlist=[...])]: the module's namespace. *)
Variable py_import : string -> exn + obj.

(** [conll.Conll03Reader(path, lang)]: the attributes of the new reader. *)
Variable Conll03Reader : string -> value -> exn + obj.

(** [compressed_load(path)]: unpickling adds objects to the heap. *)
Variable compressed_load : string -> heap -> exn + (heap * value).

(** [compressed_dump(path, model)] *)
Variable compressed_dump : string -> value -> heap -> exn + unit.

(** [tagger.GreedySVMTagger(fd, hd, lang=..., verbose=...)]: the
    attributes that [__init__] gives the new instance. *)
Variable GreedySVMTagger : value -> value -> value -> Z -> exn + obj.

(** [model.feature_extraction(reader, minc=..., use_eph=...)] *)
Variable feature_extraction :
  value -> value -> Z -> bool -> heap -> exn + heap.

(** [model.train(reader, reg=..., epochs=..., shuffle=...)] *)
Variable tagger_train :
  value -> value -> Q -> Z -> bool -> heap -> exn + heap.

(** [model.describe(k=...)] *)
Variable describe : value -> Z -> heap -> exn + heap.

(** [instance.shape[0]] for each instance that
    [model.dataset.iterinstances()] yields, and [model.dataset.n]. *)
Variable iterinstances : value -> heap -> exn + list Z.
Variable dataset_n : value -> heap -> exn + Z.

(** [open(path, mode)] *)
Variable py_open : string -> string -> exn + unit.

(** [reader.write_sent_predictions(model, f, raw=...)] *)
Variable write_sent_predictions :
  value -> value -> stream -> bool -> heap -> exn + heap.

(** *** [train] *)

(** [parser.error(msg)]: usage and message on standard error, exit
    status 2. *)
Definition parser_error {A} (msg : string) : M A :=
  emit (EvParserError msg);; sys_exit 2.

(** Lines 113-121: get the feature extraction module. *)
Definition import_feature_module (options : options) : M (value * value) :=
  try_except_ImportError
    (let import_path := "nut.ner.features." +:+ feature_module options in
     emit (EvImport import_path);;
     mod_ ← lift (py_import import_path);
     fd ← lift (from_option inr (inl AttributeError) (mod_ !! "fd"));
     hd ← lift (from_option inr (inl AttributeError) (mod_ !! "hd"));
     mret (fd, hd))
    (print [VStr ("Error: cannot import feature extractors from "
                  +:+ feature_module options)];;
     sys_exit (-2)).

(** [conll.Conll03Reader(path, lang)] *)
Definition new_reader (path : string) (lang : value) : M value :=
  emit (EvReader path lang);;
  d ← lift (Conll03Reader path lang);
  alloc d.

(** [tagger.GreedySVMTagger(fd, hd, lang=lang, verbose=verbose)] *)
Definition new_tagger (fd hd lang : value) (verbose : Z) : M value :=
  emit (EvNewTagger fd hd lang verbose);;
  d ← lift (GreedySVMTagger fd hd lang verbose);
  alloc d.

(** Lines 126-150: the branch taken when [options.aso] is true. *)
Definition aso_tagger (options : options) (path : string) : M value :=
  print [VStr "Loading ASO model..."];;
  flush Stdout;;
  emit (EvLoad path);;
  aso_model ← call (compressed_load path);
  print [VStr "[done]"];;
  (* Create Tagger from ASOModel *)
  aso_fd ← get_attr aso_model "fd";
  aso_hd ← get_attr aso_model "hd";
  aso_lang ← get_attr aso_model "lang";
  model ← new_tagger aso_fd aso_hd aso_lang (verbose options);
  aso_use_eph ← get_attr aso_model "use_eph";
  (if py_ne (VBool (use_eph options)) aso_use_eph
   then raise (Error "options.use_eph != aso_model.use_eph.")
   else mret tt);;
  aso_lang' ← get_attr aso_model "lang";
  (if py_ne (VStr (lang options)) aso_lang'
   then raise (Error "options.lang != aso_model.lang.")
   else mret tt);;
  (v ← get_attr aso_model "vocabulary"; set_attr model "V" v);;
  (v ← get_attr aso_model "tags"; set_attr model "T" v);;
  (v ← get_attr aso_model "use_eph"; set_attr model "use_eph" v);;
  (v ← get_attr aso_model "minc"; set_attr model "minc" v);;
  (v ← get_attr aso_model "fidx_map"; set_attr model "fidx_map" v);;
  (v ← get_attr aso_model "tidx_map"; set_attr model "tidx_map" v);;
  (v ← get_attr aso_model "tag_map"; set_attr model "tag_map" v);;
  (* turn ASO on and hand over ASO model *)
  set_attr model "use_aso" (VBool true);;
  set_attr model "aso_model" aso_model;;
  mret model.

(** Lines 154-158: the branch taken otherwise. *)
Definition plain_tagger (options : options) (fd hd train_reader : value)
  : M value :=
  model ← new_tagger fd hd (VStr (lang options)) (verbose options);
  emit (EvFeatureExtraction model train_reader (minc options)
          (use_eph options));;
  call_ (feature_extraction model train_reader (minc options)
           (use_eph options));;
  mret model.

(** Lines 104-158: from the command line to the configured tagger.
    Returns what the rest of [train] uses: the options, [f_model],
    [train_reader] and [model]. *)
Definition train_setup (cmdline : list string)
  : M (options * string * value * value) :=
  emit (EvParseArgs cmdline);;
  '(options, argv) ← match parse_args train_args_parser cmdline with
                     | inl code => sys_exit code
                     | inr r => mret r
                     end;
  match argv with
  | [f_train; f_model] =>
      '(fd, hd) ← import_feature_module options;
      train_reader ← new_reader f_train (VStr (lang options));
      model ← match aso_given options with
              | Some path => aso_tagger options path
              | None => plain_tagger options fd hd train_reader
              end;
      mret (options, f_model, train_reader, model)
  | _ =>
      parser_error "incorrect number of arguments (use `--help` for help)."
  end.

(** Lines 160-171: learn, print the statistics, persist. *)
Definition train_run (s : options * string * value * value) : M unit :=
  let '(options, f_model, train_reader, model) := s in
  emit (EvTrain model train_reader (reg options) (epochs options)
          (shuffle options));;
  call_ (tagger_train model train_reader (reg options) (epochs options)
           (shuffle options));;
  (if stats options then
     print [VStr (str_repeat "_" 80)];;
     print [VStr (" Stats" +:+ nl)];;
     emit (EvDescribe model 40);;
     call_ (describe model 40);;
     emit (EvIterInstances model);;
     h ← get_heap;
     shapes ← lift (iterinstances model h);
     let nnz := fold_left Z.add shapes 0 in
     h ← get_heap;
     n ← lift (dataset_n model h);
     if Z.eqb n 0 then raise ZeroDivisionError
     else printing Stdout (EvPrintAvgNnz nnz n)
   else mret tt);;
  emit (EvDump f_model model);;
  h ← get_heap;
  lift (compressed_dump f_model model h).

Definition train (cmdline : list string) : M unit :=
  train_setup cmdline ≫= train_run.

(** *** [predict] *)

Definition usage_text (prog : string) : string :=
  "Usage: " +:+ prog +:+ " [OPTIONS] MODEL_FILE TEST_FILE PRED_FILE" +:+ nl
  +:+ "        Load NER model from MODEL_FILE, test the model on" +:+ nl
  +:+ "        TEST_FILE and write predictions to PRED_FILE." +:+ nl
  +:+ "        The predictions are appended to the test file." +:+ nl
  +:+ "        Options:" +:+ nl
  +:+ "          -h, --help" +:+ tab +:+ "print this help." +:+ nl
  +:+ nl
  +:+ "        ".

Definition usage (prog : string) : M unit :=
  print [VStr (usage_text prog)].

(** Lines 202-205: the stream the predictions go to. *)
Definition pred_stream (pred_file : string) : M stream :=
  if negb (String.eqb pred_file "-") then
    emit (EvOpen pred_file "w+");;
    lift (py_open pred_file "w+");;
    mret (FileStream pred_file)
  else mret Stdout.

(** ["--help" in argv or "-h" in argv] *)
Definition wants_help (argv : list string) : bool :=
  existsb (String.eqb "--help") argv || existsb (String.eqb "-h") argv.

(** [prog] is [sys.argv[0]] and [argv] is [sys.argv[1:]]. *)
Definition predict (prog : string) (argv : list string) : M unit :=
  if wants_help argv then
    usage prog;; sys_exit (-2)
  else
    match argv with
    | [model_file; test_file; pred_file] =>
        print_to Stderr [VStr "loading tagger..."];;
        flush Stderr;;
        emit (EvLoad model_file);;
        model ← call (compressed_load model_file);
        print_to Stderr [VStr "[done]"];;
        print_to Stderr [VStr "use_eph: "];;
        (v ← get_attr model "use_eph"; print_to Stderr [v]);;
        print_to Stderr [VStr "use_aso: "];;
        (v ← get_attr model "use_aso"; print_to Stderr [v]);;
        model_lang ← get_attr model "lang";
        test_reader ← new_reader test_file model_lang;
        f ← pred_stream pred_file;
        emit EvTime;;
        emit (EvWritePredictions test_reader model f false);;
        call_ (write_sent_predictions test_reader model f false);;
        close f;;
        emit EvTime;;
        printing Stderr (EvPrintElapsed Stderr)
    | _ =>
        print [VStr "Error: wrong number of arguments. "];;
        usage prog;;
        sys_exit (-2)
    end.

(** The rest of [train] from line 123 on when [options.aso] is true. *)
Definition aso_run (options : options) (f_train f_model path : string)
  : M unit :=
  train_reader ← new_reader f_train (VStr (lang options));
  model ← aso_tagger options path;
  train_run (options, f_model, train_reader, model).

(** Lines 162-171: what [train] does once the learner has returned. *)
Definition report_and_dump (options : options) (f_model : string)
  (model : value) : M unit :=
  (if stats options then
     print [VStr (str_repeat "_" 80)];;
     print [VStr (" Stats" +:+ nl)];;
     emit (EvDescribe model 40);;
     call_ (describe model 40);;
     emit (EvIterInstances model);;
     h ← get_heap;
     shapes ← lift (iterinstances model h);
     let nnz := fold_left Z.add shapes 0 in
     h ← get_heap;
     n ← lift (dataset_n model h);
     if Z.eqb n 0 then raise ZeroDivisionError
     else printing Stdout (EvPrintAvgNnz nnz n)
   else mret tt);;
  emit (EvDump f_model model);;
  h ← get_heap;
  lift (compressed_dump f_model model h).

(** *** Runs that reach the tagger *)

(** The command line [cmdline] has the two positional arguments [f_train]
    and [f_model], the feature module imports as [md] with [fd] and [hd],
    and the reader on [f_train] is built with attributes [rd]. *)
Definition front_ok (cmdline : list string) (options : options)
  (f_train f_model : string) (md : obj) (fd hd : value) (rd : obj) : Prop :=
  parse_args train_args_parser cmdline = inr (options, [f_train; f_model]) /\
  py_import ("nut.ner.features." +:+ feature_module options) = inr md /\
  md !! "fd" = Some fd /\
  md !! "hd" = Some hd /\
  Conll03Reader f_train (VStr (lang options)) = inr rd.

(** [--aso path] is given, [path] unpickles from the heap [h1] to the ASO
    model [aso_model] of the heap [h2], with the fields [a], and the tagger
    built from these has the attributes [d]. *)
Definition aso_ok (options : options) (h1 : heap) (path : string)
  (h2 : heap) (aso_model : value) (a : aso_fields) (d : obj) : Prop :=
  aso_given options = Some path /\
  compressed_load path h1 = inr (h2, aso_model) /\
  has_aso_fields h2 aso_model a /\
  GreedySVMTagger (a_fd a) (a_hd a) (a_lang a) (verbose options) = inr d.

(** The model at [model_file] unpickles from [h] to [model] of the heap
    [h1], it has the three attributes that [predict] reads, and the reader
    on [test_file] is built with attributes [rd]. *)
Definition model_ok (model_file test_file : string) (h h1 : heap)
  (model model_use_eph model_use_aso model_lang : value) (rd : obj) : Prop :=
  compressed_load model_file h = inr (h1, model) /\
  getattr h1 model "use_eph" = Some model_use_eph /\
  getattr h1 model "use_aso" = Some model_use_aso /\
  getattr h1 model "lang" = Some model_lang /\
  Conll03Reader test_file model_lang = inr rd.

(** What [predict] has written when it calls the prediction writer. *)
Definition predict_prologue (model_file test_file : string)
  (model_use_eph model_use_aso model_lang : value) : list event :=
  [EvPrint Stderr [VStr "loading tagger..."];
   EvFlush Stderr;
   EvLoad model_file;
   EvPrint Stderr [VStr "[done]"];
   EvPrint Stderr [VStr "use_eph: "];
   EvPrint Stderr [model_use_eph];
   EvPrint Stderr [VStr "use_aso: "];
   EvPrint Stderr [model_use_aso];
   EvReader test_file model_lang].

Definition predict_events (model_file test_file pred_file : string)
  (model model_use_eph model_use_aso model_lang reader : value)
  : list event :=
  predict_prologue model_file test_file model_use_eph model_use_aso
    model_lang
  ++ (if String.eqb pred_file "-" then [] else [EvOpen pred_file "w+"])
  ++ [EvTime; EvWritePredictions reader model (stream_of pred_file) false].

(** What it writes after the writer has returned. *)
Definition predict_epilogue (pred_file : string) : list event :=
  [EvClose (stream_of pred_file); EvTime; EvPrintElapsed Stderr].

(** [m] calls [close()] on streams that satisfy [S], and on no others. *)
Definition closes_only {A} (S : stream -> Prop) (m : M A) : Prop :=
  forall w, exists l, w_closed (m w).2 = l ++ w_closed w /\ Forall S l.

Definition is_train (ev : event) : bool :=
  match ev with
  | EvTrain _ _ _ _ _ => true
  | _ => false
  end.

Definition is_dump (ev : event) : bool :=
  match ev with
  | EvDump _ _ => true
  | _ => false
  end.

(** The statistics of lines 162-169. *)
Definition is_report (ev : event) : bool :=
  match ev with
  | EvDescribe _ _ | EvIterInstances _ | EvPrintAvgNnz _ _ => true
  | _ => false
  end.

(** [predict] loads [model_file] and reads [test_file], nothing else. *)
Definition reads_files (model_file test_file : string) (ev : event) : Prop :=
  match ev with
  | EvLoad path => path = model_file
  | EvReader path _ => path = test_file
  | _ => True
  end.

(** What the ASO branch may do: it loads [path] only and never calls
    feature extraction. *)
Definition aso_branch_event (path : string) (ev : event) : Prop :=
  match ev with
  | EvLoad p => p = path
  | EvFeatureExtraction _ _ _ _ => False
  | _ => True
  end.

(** What [predict] does once it has a model: reader, file, writer, close. *)
Definition is_output_work (ev : event) : bool :=
  match ev with
  | EvReader _ _ | EvOpen _ _ | EvWritePredictions _ _ _ _ | EvClose _ => true
  | _ => false
  end.

(** ** The heap *)

Lemma new_loc_fresh (h : heap) : h !! new_loc h = None.
Proof. unfold new_loc. apply not_elem_of_dom, is_fresh. Qed.

Lemma getattr_insert_ne (h : heap) l d o name :
  o <> VRef l -> getattr (<[l := d]> h) o name = getattr h o name.
Proof.
  intros Hne. destruct o; try reflexivity. simpl.
  rewrite lookup_insert_ne; [reflexivity | congruence].
Qed.

Lemma getattr_insert_eq (h : heap) l d name :
  getattr (<[l := d]> h) (VRef l) name = d !! name.
Proof. simpl. rewrite lookup_insert_eq. reflexivity. Qed.

Lemma setattr_insert_eq (h : heap) l d name v :
  setattr (<[l := d]> h) (VRef l) name v = Some (<[l := <[name := v]> d]> h).
Proof. simpl. rewrite lookup_insert_eq, insert_insert_eq. reflexivity. Qed.

(** An object that has an attribute is not the next one to be created. *)
Lemma getattr_Some_old (h : heap) o name v :
  getattr h o name = Some v -> o <> VRef (new_loc h).
Proof.
  intros Hget ->. simpl in Hget. rewrite new_loc_fresh in Hget. discriminate.
Qed.

Lemma getattr_alloc (h : heap) d o name v :
  getattr h o name = Some v ->
  getattr (<[new_loc h := d]> h) o name = Some v.
Proof.
  intros Hget. rewrite getattr_insert_ne; [exact Hget |].
  eapply getattr_Some_old, Hget.
Qed.

(** ** Rules for [emits_only] *)

Section EmitsOnly.
Context (P : event -> Prop).

Lemma emits_nothing {A} (m : M A) :
  (forall w, w_trace (m w).2 = w_trace w) -> emits_only P m.
Proof.
  intros Hm w. exists []. rewrite Hm, app_nil_r. split; [reflexivity |].
  constructor.
Qed.

Lemma emits_ret {A} (a : A) : emits_only P (mret a).
Proof. apply emits_nothing. reflexivity. Qed.

Lemma emits_raise {A} e : emits_only P (@raise A e).
Proof. apply emits_nothing. reflexivity. Qed.

Lemma emits_sys_exit {A} c : emits_only P (@sys_exit A c).
Proof. apply emits_nothing. reflexivity. Qed.

Lemma emits_bind {A B} (m : M A) (f : A -> M B) :
  emits_only P m -> (forall a, emits_only P (f a)) ->
  emits_only P (m ≫= f).
Proof.
  intros Hm Hf w. destruct (Hm w) as (l & Hl & HP).
  unfold mbind, M_bind. destruct (m w) as [[a | e | c] w']; simpl in *.
  - destruct (Hf a w') as (l' & Hl' & HP'). exists (l ++ l').
    rewrite Hl', Hl, app_assoc. split; [reflexivity |].
    apply Forall_app. split; assumption.
  - exists l. split; assumption.
  - exists l. split; assumption.
Qed.

Lemma emits_ret_bind {A B} (a : A) (f : A -> M B) :
  emits_only P (f a) -> emits_only P (mret a ≫= f).
Proof. intros Hf w. exact (Hf w). Qed.

Lemma emits_emit ev : P ev -> emits_only P (emit ev).
Proof.
  intros Hev w. exists [ev]. split; [reflexivity |].
  constructor; [exact Hev | constructor].
Qed.

Lemma emits_get_heap : emits_only P get_heap.
Proof. apply emits_nothing. reflexivity. Qed.

Lemma emits_put_heap h : emits_only P (put_heap h).
Proof. apply emits_nothing. reflexivity. Qed.

Lemma emits_lift {A} (r : exn + A) : emits_only P (lift r).
Proof. destruct r; [apply emits_raise | apply emits_ret]. Qed.

Lemma emits_call {A} (f : heap -> exn + (heap * A)) : emits_only P (call f).
Proof.
  unfold call. apply emits_bind; [apply emits_get_heap | intros h].
  apply emits_bind; [apply emits_lift | intros [h' a]].
  apply emits_bind; [apply emits_put_heap | intros _]. apply emits_ret.
Qed.

Lemma emits_call_ (f : heap -> exn + heap) : emits_only P (call_ f).
Proof.
  unfold call_. apply emits_bind; [apply emits_get_heap | intros h].
  apply emits_bind; [apply emits_lift | intros h']. apply emits_put_heap.
Qed.

Lemma emits_get_attr o name : emits_only P (get_attr o name).
Proof.
  unfold get_attr. apply emits_bind; [apply emits_get_heap | intros h].
  destruct (getattr h o name); [apply emits_ret | apply emits_raise].
Qed.

Lemma emits_set_attr o name v :
  P (EvSetAttr o name v) -> emits_only P (set_attr o name v).
Proof.
  intros Hev. unfold set_attr.
  apply emits_bind; [apply emits_get_heap | intros h].
  destruct (setattr h o name v); [| apply emits_raise].
  apply emits_bind; [apply emits_emit, Hev | intros _]. apply emits_put_heap.
Qed.

Lemma emits_alloc d : emits_only P (alloc d).
Proof.
  unfold alloc. apply emits_bind; [apply emits_get_heap | intros h].
  apply emits_bind; [apply emits_put_heap | intros _]. apply emits_ret.
Qed.

Lemma emits_printing s ev : P ev -> emits_only P (printing s ev).
Proof.
  intros Hev w. unfold printing. destruct (is_closed s w).
  - apply (emits_raise ValueError).
  - apply emits_emit; assumption.
Qed.

Lemma emits_print_to s items :
  P (EvPrint s items) -> emits_only P (print_to s items).
Proof. apply emits_printing. Qed.

Lemma emits_flush s : P (EvFlush s) -> emits_only P (flush s).
Proof.
  intros Hev w. unfold flush. destruct (is_closed s w).
  - apply (emits_raise ValueError).
  - apply emits_emit; assumption.
Qed.

Lemma emits_close s : P (EvClose s) -> emits_only P (close s).
Proof.
  intros Hev w. exists [EvClose s]. split; [reflexivity |].
  constructor; [exact Hev | constructor].
Qed.

Lemma emits_try {A} (body handler : M A) :
  emits_only P body -> emits_only P handler ->
  emits_only P (try_except_ImportError body handler).
Proof.
  intros Hb Hh w. destruct (Hb w) as (l & Hl & HP).
  unfold try_except_ImportError.
  destruct (body w) as [[a | e | c] w']; simpl in *;
    try (exists l; split; assumption).
  destruct e; try (exists l; split; assumption).
  destruct (Hh w') as (l' & Hl' & HP'). exists (l ++ l').
  rewrite Hl', Hl, app_assoc. split; [reflexivity |].
  apply Forall_app. split; assumption.
Qed.

Lemma emits_bind_returns {A B} (Q : A -> Prop) (m : M A) (f : A -> M B) :
  emits_only P m -> returns Q m -> (forall a, Q a -> emits_only P (f a)) ->
  emits_only P (m ≫= f).
Proof.
  intros Hm HQ Hf w. destruct (Hm w) as (l & Hl & HP). specialize (HQ w).
  unfold mbind, M_bind. destruct (m w) as [[a | e | c] w']; simpl in *.
  - destruct (Hf a HQ w') as (l' & Hl' & HP'). exists (l ++ l').
    rewrite Hl', Hl, app_assoc. split; [reflexivity |].
    apply Forall_app. split; assumption.
  - exists l. split; assumption.
  - exists l. split; assumption.
Qed.

End EmitsOnly.

(** *** Rules for [returns] *)

Lemma returns_ret {A} (Q : A -> Prop) a : Q a -> returns Q (mret a).
Proof. intros Ha w. exact Ha. Qed.

Lemma returns_raise {A} (Q : A -> Prop) e : returns Q (raise e).
Proof. intros w. exact I. Qed.

Lemma returns_sys_exit {A} (Q : A -> Prop) c : returns Q (sys_exit c).
Proof. intros w. exact I. Qed.

Lemma returns_bind {A B} (Q : B -> Prop) (m : M A) (f : A -> M B) :
  (forall a, returns Q (f a)) -> returns Q (m ≫= f).
Proof.
  intros Hf w. unfold mbind, M_bind.
  destruct (m w) as [[a | e | c] w']; simpl; [apply Hf | exact I | exact I].
Qed.

Lemma returns_ret_bind {A B} (Q : B -> Prop) (a : A) (f : A -> M B) :
  returns Q (f a) -> returns Q (mret a ≫= f).
Proof. intros Hf w. exact (Hf w). Qed.

Ltac returns_step :=
  match goal with
  | |- returns _ (_ ≫= _) => apply returns_bind
  | |- returns _ (mret _) => apply returns_ret
  | |- returns _ (raise _) => apply returns_raise
  | |- returns _ (sys_exit _) => apply returns_sys_exit
  | |- returns _ (match ?x with _ => _ end) => destruct x
  | |- forall _, _ => intro
  end.

Create HintDb emits.

#[local] Hint Resolve emits_ret emits_raise emits_sys_exit emits_get_heap
  emits_put_heap emits_lift emits_call emits_call_ emits_get_attr
  emits_alloc : emits.

(** One step of a proof of [emits_only]: split a bind, use the rule of a
    primitive, or look at the case a [match] or an [if] is in. *)
Ltac emits_step :=
  match goal with
  | |- emits_only _ (_ ≫= _) => apply emits_bind
  | |- emits_only _ (emit _) => apply emits_emit; simpl
  | |- emits_only _ (printing _ _) => apply emits_printing; simpl
  | |- emits_only _ (print_to _ _) => apply emits_print_to; simpl
  | |- emits_only _ (print _) => apply emits_print_to; simpl
  | |- emits_only _ (flush _) => apply emits_flush; simpl
  | |- emits_only _ (close _) => apply emits_close; simpl
  | |- emits_only _ (set_attr _ _ _) => apply emits_set_attr; simpl
  | |- emits_only _ (try_except_ImportError _ _) => apply emits_try
  | |- emits_only _ (match ?x with _ => _ end) => destruct x
  | |- emits_only _ _ => solve [auto with emits]
  | |- forall _, _ => intro
  end.

(** Runs the primitives of the script monad on the world at hand. *)
Ltac run :=
  cbv beta iota zeta delta
    [mbind M_bind mret M_ret emit raise sys_exit lift call call_ get_heap
     put_heap get_attr set_attr alloc print print_to printing flush close
     try_except_ImportError is_closed w_heap w_trace w_closed init_world
     from_option fst snd];
  cbn [app existsb stream_eqb orb negb].

(** ** The blocks of [train] *)

Lemma import_ok options md fd hd h t :
  py_import ("nut.ner.features." +:+ feature_module options) = inr md ->
  md !! "fd" = Some fd ->
  md !! "hd" = Some hd ->
  import_feature_module options (World h t []) =
    (Ret (fd, hd),
     World h
       (t ++ [EvImport ("nut.ner.features." +:+ feature_module options)])
       []).
Proof.
  intros Himp Hfd Hhd. unfold import_feature_module. run.
  rewrite Himp. run. rewrite Hfd, Hhd. reflexivity.
Qed.

Lemma import_failed options h t :
  py_import ("nut.ner.features." +:+ feature_module options)
    = inl ImportError ->
  import_feature_module options (World h t []) =
    (Exit (-2),
     World h
       (t ++ [EvImport ("nut.ner.features." +:+ feature_module options);
              EvPrint Stdout
                [VStr ("Error: cannot import feature extractors from "
                       +:+ feature_module options)]])
       []).
Proof.
  intros Himp. unfold import_feature_module. run.
  rewrite Himp. run. rewrite <- app_assoc. reflexivity.
Qed.

Lemma new_reader_ok path lang d h t c :
  Conll03Reader path lang = inr d ->
  new_reader path lang (World h t c) =
    (Ret (VRef (new_loc h)),
     World (<[new_loc h := d]> h) (t ++ [EvReader path lang]) c).
Proof.
  intros Hr. unfold new_reader. run. rewrite Hr. reflexivity.
Qed.

Lemma new_tagger_ok fd hd lang verbose d h t c :
  GreedySVMTagger fd hd lang verbose = inr d ->
  new_tagger fd hd lang verbose (World h t c) =
    (Ret (VRef (new_loc h)),
     World (<[new_loc h := d]> h)
       (t ++ [EvNewTagger fd hd lang verbose]) c).
Proof.
  intros Ht. unfold new_tagger. run. rewrite Ht. reflexivity.
Qed.

Lemma aso_tagger_ok options path h t h2 aso_model a d :
  compressed_load path h = inr (h2, aso_model) ->
  has_aso_fields h2 aso_model a ->
  GreedySVMTagger (a_fd a) (a_hd a) (a_lang a) (verbose options) = inr d ->
  py_ne (VBool (use_eph options)) (a_use_eph a) = false ->
  py_ne (VStr (lang options)) (a_lang a) = false ->
  aso_tagger options path (World h t []) =
    (Ret (VRef (new_loc h2)),
     World (<[new_loc h2 := bound_tagger d aso_model a]> h2)
       (t ++ aso_prologue options path (a_fd a) (a_hd a) (a_lang a)
          ++ binding_events (VRef (new_loc h2)) aso_model a)
       []).
Proof.
  intros Hload (Hfd & Hhd & Hlang & Heph & Hminc & Hvoc & Htags & Hfidx
                & Htidx & Htag) Hnew Hceph Hclang.
  assert (Hne : aso_model <> VRef (new_loc h2))
    by (eapply getattr_Some_old, Hfd).
  unfold aso_tagger. run. rewrite Hload. run.
  rewrite Hfd, Hhd, Hlang. run.
  rewrite (new_tagger_ok _ _ _ _ _ _ _ _ Hnew). run.
  rewrite (getattr_insert_ne _ _ _ _ _ Hne), Heph, Hceph. run.
  rewrite (getattr_insert_ne _ _ _ _ _ Hne), Hlang, Hclang. run.
  rewrite (getattr_insert_ne _ _ _ _ _ Hne), Hvoc, setattr_insert_eq. run.
  rewrite (getattr_insert_ne _ _ _ _ _ Hne), Htags, setattr_insert_eq. run.
  rewrite (getattr_insert_ne _ _ _ _ _ Hne), Heph, setattr_insert_eq. run.
  rewrite (getattr_insert_ne _ _ _ _ _ Hne), Hminc, setattr_insert_eq. run.
  rewrite (getattr_insert_ne _ _ _ _ _ Hne), Hfidx, setattr_insert_eq. run.
  rewrite (getattr_insert_ne _ _ _ _ _ Hne), Htidx, setattr_insert_eq. run.
  rewrite (getattr_insert_ne _ _ _ _ _ Hne), Htag, setattr_insert_eq. run.
  rewrite setattr_insert_eq. run. rewrite setattr_insert_eq. run.
  unfold aso_prologue, binding_events, bound_tagger.
  rewrite <- !app_assoc. reflexivity.
Qed.

Lemma aso_tagger_mismatch options path h t h2 aso_model fd hd alang eph d :
  compressed_load path h = inr (h2, aso_model) ->
  getattr h2 aso_model "fd" = Some fd ->
  getattr h2 aso_model "hd" = Some hd ->
  getattr h2 aso_model "lang" = Some alang ->
  getattr h2 aso_model "use_eph" = Some eph ->
  GreedySVMTagger fd hd alang (verbose options) = inr d ->
  py_ne (VBool (use_eph options)) eph
    || py_ne (VStr (lang options)) alang = true ->
  aso_tagger options path (World h t []) =
    (Raise (if py_ne (VBool (use_eph options)) eph
            then use_eph_mismatch else lang_mismatch),
     World (<[new_loc h2 := d]> h2)
       (t ++ aso_prologue options path fd hd alang) []).
Proof.
  intros Hload Hfd Hhd Hlang Heph Hnew Hmis.
  assert (Hne : aso_model <> VRef (new_loc h2))
    by (eapply getattr_Some_old, Hfd).
  unfold aso_tagger. run. rewrite Hload. run.
  rewrite Hfd, Hhd, Hlang. run.
  rewrite (new_tagger_ok _ _ _ _ _ _ _ _ Hnew). run.
  rewrite (getattr_insert_ne _ _ _ _ _ Hne), Heph.
  unfold aso_prologue. rewrite <- !app_assoc.
  destruct (py_ne (VBool (use_eph options)) eph); run; [reflexivity |].
  rewrite (getattr_insert_ne _ _ _ _ _ Hne), Hlang.
  simpl in Hmis. rewrite Hmis. reflexivity.
Qed.

Lemma plain_tagger_ok options fd hd reader h t d h' :
  GreedySVMTagger fd hd (VStr (lang options)) (verbose options) = inr d ->
  feature_extraction (VRef (new_loc h)) reader (minc options)
    (use_eph options) (<[new_loc h := d]> h) = inr h' ->
  plain_tagger options fd hd reader (World h t []) =
    (Ret (VRef (new_loc h)),
     World h'
       (t ++ [EvNewTagger fd hd (VStr (lang options)) (verbose options);
              EvFeatureExtraction (VRef (new_loc h)) reader (minc options)
                (use_eph options)])
       []).
Proof.
  intros Hnew Hfe. unfold plain_tagger. run.
  rewrite (new_tagger_ok _ _ _ _ _ _ _ _ Hnew). run. rewrite Hfe. run.
  rewrite <- app_assoc. reflexivity.
Qed.

Lemma plain_tagger_failed options fd hd reader h t d e :
  GreedySVMTagger fd hd (VStr (lang options)) (verbose options) = inr d ->
  feature_extraction (VRef (new_loc h)) reader (minc options)
    (use_eph options) (<[new_loc h := d]> h) = inl e ->
  plain_tagger options fd hd reader (World h t []) =
    (Raise e,
     World (<[new_loc h := d]> h)
       (t ++ [EvNewTagger fd hd (VStr (lang options)) (verbose options);
              EvFeatureExtraction (VRef (new_loc h)) reader (minc options)
                (use_eph options)])
       []).
Proof.
  intros Hnew Hfe. unfold plain_tagger. run.
  rewrite (new_tagger_ok _ _ _ _ _ _ _ _ Hnew). run. rewrite Hfe. run.
  rewrite <- app_assoc. reflexivity.
Qed.

(** *** [train] up to line 125 *)

Lemma train_setup_front cmdline options f_train f_model md fd hd rd h :
  parse_args train_args_parser cmdline = inr (options, [f_train; f_model]) ->
  py_import ("nut.ner.features." +:+ feature_module options) = inr md ->
  md !! "fd" = Some fd ->
  md !! "hd" = Some hd ->
  Conll03Reader f_train (VStr (lang options)) = inr rd ->
  train_setup cmdline (init_world h) =
    (match aso_given options with
     | Some path => aso_tagger options path
     | None => plain_tagger options fd hd (VRef (new_loc h))
     end ≫= λ model, mret (options, f_model, VRef (new_loc h), model))
      (World (<[new_loc h := rd]> h) (front_events options cmdline f_train)
         []).
Proof.
  intros Hparse Himp Hfd Hhd Hrd. unfold train_setup. run.
  rewrite Hparse. run.
  rewrite (import_ok _ _ _ _ _ _ Himp Hfd Hhd). run.
  rewrite (new_reader_ok _ _ _ _ _ _ Hrd). reflexivity.
Qed.

Lemma train_raise cmdline w e w' :
  train_setup cmdline w = (Raise e, w') -> train cmdline w = (Raise e, w').
Proof. intros H. unfold train. run. rewrite H. reflexivity. Qed.

Lemma train_exit cmdline w c w' :
  train_setup cmdline w = (Exit c, w') -> train cmdline w = (Exit c, w').
Proof. intros H. unfold train. run. rewrite H. reflexivity. Qed.

Lemma train_ret cmdline w s w' :
  train_setup cmdline w = (Ret s, w') -> train cmdline w = train_run s w'.
Proof. intros H. unfold train. run. rewrite H. reflexivity. Qed.


(** From the initial world, [emits_only] speaks of the whole trace. *)
Lemma emits_only_init {A} (P : event -> Prop) (m : M A) h :
  emits_only P m -> Forall P (w_trace (m (init_world h)).2).
Proof.
  intros Hm. destruct (Hm (init_world h)) as (l & Hl & HP).
  rewrite Hl. exact HP.
Qed.

Ltac emits_auto :=
  repeat emits_step; try exact I; try reflexivity; auto.


(** [train_setup] hands on the options and the second positional
    argument. *)
Lemma train_setup_returns cmdline options f_train f_model :
  parse_args train_args_parser cmdline = inr (options, [f_train; f_model]) ->
  returns (fun s => s.1.1 = (options, f_model)) (train_setup cmdline).
Proof.
  intros Hparse. unfold train_setup. apply returns_bind; intros _.
  rewrite Hparse. apply returns_ret_bind. repeat returns_step. reflexivity.
Qed.


Lemma bind_run {A B} (m : M A) (f : A -> M B) w :
  (m ≫= f) w =
    match m w with
    | (Ret a, w') => f a w'
    | (Raise e, w') => (Raise e, w')
    | (Exit c, w') => (Exit c, w')
    end.
Proof. reflexivity. Qed.





Lemma train_import_failed cmdline options f_train f_model h :
  parse_args train_args_parser cmdline = inr (options, [f_train; f_model]) ->
  py_import ("nut.ner.features." +:+ feature_module options)
    = inl ImportError ->
  train cmdline (init_world h) =
    (Exit (-2),
     World h
       [EvParseArgs cmdline;
        EvImport ("nut.ner.features." +:+ feature_module options);
        EvPrint Stdout
          [VStr ("Error: cannot import feature extractors from "
                 +:+ feature_module options)]]
       []).
Proof.
  intros Hparse Himp. apply train_exit. unfold train_setup. run.
  rewrite Hparse. run. rewrite (import_failed _ _ _ Himp). reflexivity.
Qed.

(** With an ASO model, what [train] does after the import mentions neither
    the imported functions nor [options.minc]. *)
Lemma train_aso_after_import cmdline options f_train f_model md fd hd path h :
  parse_args train_args_parser cmdline = inr (options, [f_train; f_model]) ->
  py_import ("nut.ner.features." +:+ feature_module options) = inr md ->
  md !! "fd" = Some fd ->
  md !! "hd" = Some hd ->
  aso_given options = Some path ->
  train cmdline (init_world h) =
    aso_run options f_train f_model path
      (World h
         [EvParseArgs cmdline;
          EvImport ("nut.ner.features." +:+ feature_module options)]
         []).
Proof.
  intros Hparse Himp Hfd Hhd Haso. unfold train, train_setup, aso_run. run.
  rewrite Hparse. run. rewrite (import_ok _ _ _ _ _ _ Himp Hfd Hhd). run.
  rewrite Haso.
  match goal with
  | |- context [new_reader ?p ?l ?w] =>
      destruct (new_reader p l w) as [[r | e | c] w1]; try reflexivity
  end.
  match goal with
  | |- context [aso_tagger ?o ?p ?w] =>
      destruct (aso_tagger o p w) as [[m | e | c] w2]; reflexivity
  end.
Qed.

(** ** The claims about [train] *)

(** C3: when importing the feature module named on the command line raises
    [ImportError], [train] prints the error message and calls
    [sys.exit(-2)]; by then it has built no reader and no tagger, loaded
    nothing and started no training, and the heap is as it was. *)
Theorem import_failure_exits cmdline options f_train f_model h :
  parse_args train_args_parser cmdline = inr (options, [f_train; f_model]) ->
  py_import ("nut.ner.features." +:+ feature_module options)
    = inl ImportError ->
  train cmdline (init_world h) =
    (Exit (-2),
     World h
       [EvParseArgs cmdline;
        EvImport ("nut.ner.features." +:+ feature_module options);
        EvPrint Stdout
          [VStr ("Error: cannot import feature extractors from "
                 +:+ feature_module options)]]
       [])
  /\ existsb is_model_work (w_trace (train cmdline (init_world h)).2) = false
  /\ exit_status (train cmdline (init_world h)).1 = -2.
Proof.
  intros Hparse Himp.
  rewrite (train_import_failed _ _ _ _ _ Hparse Himp). repeat split.
Qed.

(** *** With an ASO model *)

Lemma train_setup_aso_ok cmdline options f_train f_model md fd hd rd h path
    h2 aso_model a d :
  front_ok cmdline options f_train f_model md fd hd rd ->
  aso_ok options (<[new_loc h := rd]> h) path h2 aso_model a d ->
  py_ne (VBool (use_eph options)) (a_use_eph a) = false ->
  py_ne (VStr (lang options)) (a_lang a) = false ->
  train_setup cmdline (init_world h) =
    (Ret (options, f_model, VRef (new_loc h), VRef (new_loc h2)),
     World (<[new_loc h2 := bound_tagger d aso_model a]> h2)
       (front_events options cmdline f_train
          ++ aso_prologue options path (a_fd a) (a_hd a) (a_lang a)
          ++ binding_events (VRef (new_loc h2)) aso_model a)
       []).
Proof.
  intros (Hparse & Himp & Hfd & Hhd & Hrd) (Haso & Hload & Ha & Hnew)
    Heph Hlang.
  rewrite (train_setup_front _ _ _ _ _ _ _ _ _ Hparse Himp Hfd Hhd Hrd).
  rewrite Haso, bind_run.
  rewrite (aso_tagger_ok _ _ _ _ _ _ _ _ Hload Ha Hnew Heph Hlang).
  reflexivity.
Qed.

Lemma train_aso_mismatch cmdline options f_train f_model md fd hd rd h path
    h2 aso_model a d :
  front_ok cmdline options f_train f_model md fd hd rd ->
  aso_ok options (<[new_loc h := rd]> h) path h2 aso_model a d ->
  py_ne (VBool (use_eph options)) (a_use_eph a)
    || py_ne (VStr (lang options)) (a_lang a) = true ->
  train cmdline (init_world h) =
    (Raise (if py_ne (VBool (use_eph options)) (a_use_eph a)
            then use_eph_mismatch else lang_mismatch),
     World (<[new_loc h2 := d]> h2)
       (front_events options cmdline f_train
          ++ aso_prologue options path (a_fd a) (a_hd a) (a_lang a))
       []).
Proof.
  intros (Hparse & Himp & Hfd & Hhd & Hrd) (Haso & Hload & Ha & Hnew) Hmis.
  destruct Ha as (Hafd & Hahd & Halang & Haeph & _).
  apply train_raise.
  rewrite (train_setup_front _ _ _ _ _ _ _ _ _ Hparse Himp Hfd Hhd Hrd).
  rewrite Haso, bind_run.
  rewrite (aso_tagger_mismatch _ _ _ _ _ _ _ _ _ _ _
             Hload Hafd Hahd Halang Haeph Hnew Hmis).
  reflexivity.
Qed.

(** C1: when the ASO model is loaded and the tagger is built from it, a
    [use_eph] flag or a language on the command line that differs (Python's
    [!=]) from the one the ASO model records makes [train] raise [Error];
    no feature extraction and no training step has run by then, and no
    attribute has been assigned. *)
Theorem aso_mismatch_is_fatal cmdline options f_train f_model md fd hd rd h
    path h2 aso_model a d :
  front_ok cmdline options f_train f_model md fd hd rd ->
  aso_ok options (<[new_loc h := rd]> h) path h2 aso_model a d ->
  py_ne (VBool (use_eph options)) (a_use_eph a)
    || py_ne (VStr (lang options)) (a_lang a) = true ->
  (train cmdline (init_world h)).1 =
    Raise (if py_ne (VBool (use_eph options)) (a_use_eph a)
           then use_eph_mismatch else lang_mismatch)
  /\ existsb is_training_step (w_trace (train cmdline (init_world h)).2)
      = false
  /\ existsb is_set_attr (w_trace (train cmdline (init_world h)).2) = false.
Proof.
  intros Hfront Haso Hmis.
  rewrite (train_aso_mismatch _ _ _ _ _ _ _ _ _ _ _ _ _ _ Hfront Haso Hmis).
  repeat split.
Qed.

(** C9: when the binding fails on either check, the tagger object is still
    exactly what the constructor made: every attribute of it reads as in
    the fresh instance (so [V], [T], the index maps, [use_aso] and
    [aso_model] are unset unless the constructor set them), the rest of the
    heap is as unpickling left it, and the trace holds no assignment. *)
Theorem failed_binding_attaches_nothing cmdline options f_train f_model md fd
    hd rd h path h2 aso_model a d :
  front_ok cmdline options f_train f_model md fd hd rd ->
  aso_ok options (<[new_loc h := rd]> h) path h2 aso_model a d ->
  py_ne (VBool (use_eph options)) (a_use_eph a)
    || py_ne (VStr (lang options)) (a_lang a) = true ->
  w_heap (train cmdline (init_world h)).2 = <[new_loc h2 := d]> h2
  /\ (forall name,
        getattr (w_heap (train cmdline (init_world h)).2)
          (VRef (new_loc h2)) name = d !! name)
  /\ (forall name,
        In name ["V"; "T"; "use_eph"; "minc"; "fidx_map"; "tidx_map";
                 "tag_map"; "use_aso"; "aso_model"] ->
        d !! name = None ->
        getattr (w_heap (train cmdline (init_world h)).2)
          (VRef (new_loc h2)) name = None)
  /\ Forall (fun ev => is_set_attr ev = false)
       (w_trace (train cmdline (init_world h)).2).
Proof.
  intros Hfront Haso Hmis.
  rewrite (train_aso_mismatch _ _ _ _ _ _ _ _ _ _ _ _ _ _ Hfront Haso Hmis).
  cbn [snd w_heap w_trace]. split; [reflexivity |]. split; [| split].
  - intros name. apply getattr_insert_eq.
  - intros name _ Hd. rewrite getattr_insert_eq. exact Hd.
  - unfold front_events, aso_prologue. cbn [app]. repeat constructor.
Qed.

(** C2: when the ASO model's [use_eph] and [lang] equal (Python's [==]) the
    command-line settings, the binding succeeds: [train] goes on to the
    learner with a tagger whose [V], [T], [fidx_map], [tidx_map] and
    [tag_map] hold the very values the ASO model holds (references to the
    same objects), whose [aso_model] is the loaded model itself and whose
    [use_aso] is [True].  The ASO model still has its fields, and the only
    object that the heap gained since unpickling is the tagger. *)
Theorem aso_binding_by_reference cmdline options f_train f_model md fd hd rd
    h path h2 aso_model a d :
  front_ok cmdline options f_train f_model md fd hd rd ->
  aso_ok options (<[new_loc h := rd]> h) path h2 aso_model a d ->
  py_eq (VBool (use_eph options)) (a_use_eph a) = true ->
  py_eq (VStr (lang options)) (a_lang a) = true ->
  exists w',
    train_setup cmdline (init_world h) =
      (Ret (options, f_model, VRef (new_loc h), VRef (new_loc h2)), w')
    /\ train cmdline (init_world h) =
         train_run (options, f_model, VRef (new_loc h), VRef (new_loc h2)) w'
    /\ getattr (w_heap w') (VRef (new_loc h2)) "V" = Some (a_vocabulary a)
    /\ getattr (w_heap w') (VRef (new_loc h2)) "T" = Some (a_tags a)
    /\ getattr (w_heap w') (VRef (new_loc h2)) "fidx_map"
         = Some (a_fidx_map a)
    /\ getattr (w_heap w') (VRef (new_loc h2)) "tidx_map"
         = Some (a_tidx_map a)
    /\ getattr (w_heap w') (VRef (new_loc h2)) "tag_map"
         = Some (a_tag_map a)
    /\ getattr (w_heap w') (VRef (new_loc h2)) "aso_model" = Some aso_model
    /\ getattr (w_heap w') (VRef (new_loc h2)) "use_aso" = Some (VBool true)
    /\ aso_model <> VRef (new_loc h2)
    /\ has_aso_fields (w_heap w') aso_model a
    /\ dom (w_heap w') = {[new_loc h2]} ∪ dom h2.
Proof.
  intros Hfront Haso Heph Hlang.
  assert (Hsetup := train_setup_aso_ok _ _ _ _ _ _ _ _ h _ _ _ _ _
                      Hfront Haso).
  unfold py_ne in Hsetup. rewrite Heph, Hlang in Hsetup.
  specialize (Hsetup eq_refl eq_refl).
  destruct Haso as (_ & _ & Ha & _).
  assert (Hne : aso_model <> VRef (new_loc h2)).
  { destruct Ha as (Hafd & _). eapply getattr_Some_old, Hafd. }
  eexists. split; [exact Hsetup |].
  split; [apply train_ret, Hsetup |].
  cbn [w_heap]. rewrite !getattr_insert_eq. unfold bound_tagger.
  do 7 (split; [by simplify_map_eq |]).
  split; [exact Hne |]. split.
  - unfold has_aso_fields. rewrite !(getattr_insert_ne _ _ _ _ _ Hne).
    exact Ha.
  - apply dom_insert_L.
Qed.

(** *** Without an ASO model *)

Lemma train_run_first options f_model reader model w :
  exists rest,
    w_trace (train_run (options, f_model, reader, model) w).2 =
      w_trace w
        ++ EvTrain model reader (reg options) (epochs options)
             (shuffle options) :: rest
    /\ Forall (fun ev => is_training_step ev = false) rest.
Proof.
  unfold train_run. rewrite bind_run. cbn [emit].
  match goal with
  | |- context [w_trace (?k ?w1).2] =>
      assert (Hk : emits_only (fun ev => is_training_step ev = false) k)
        by emits_auto;
      destruct (Hk w1) as (rest & Hrest & Hno)
  end.
  exists rest. split; [| exact Hno].
  rewrite Hrest. cbn [w_trace].
  rewrite <- app_assoc. reflexivity.
Qed.

(** [train_run] is the call of the learner followed by
    [report_and_dump]. *)
Lemma train_run_unfold options f_model reader model :
  train_run (options, f_model, reader, model) =
    (emit (EvTrain model reader (reg options) (epochs options)
             (shuffle options));;
     call_ (tagger_train model reader (reg options) (epochs options)
              (shuffle options));;
     report_and_dump options f_model model).
Proof. reflexivity. Qed.

Lemma train_setup_plain_ok cmdline options f_train f_model md fd hd rd h d
    h3 :
  front_ok cmdline options f_train f_model md fd hd rd ->
  aso_given options = None ->
  GreedySVMTagger fd hd (VStr (lang options)) (verbose options) = inr d ->
  feature_extraction (VRef (new_loc (<[new_loc h := rd]> h)))
    (VRef (new_loc h)) (minc options) (use_eph options)
    (<[new_loc (<[new_loc h := rd]> h) := d]> (<[new_loc h := rd]> h))
    = inr h3 ->
  train_setup cmdline (init_world h) =
    (Ret (options, f_model, VRef (new_loc h),
          VRef (new_loc (<[new_loc h := rd]> h))),
     World h3
       (front_events options cmdline f_train
          ++ [EvNewTagger fd hd (VStr (lang options)) (verbose options);
              EvFeatureExtraction (VRef (new_loc (<[new_loc h := rd]> h)))
                (VRef (new_loc h)) (minc options) (use_eph options)])
       []).
Proof.
  intros (Hparse & Himp & Hfd & Hhd & Hrd) Haso Hnew Hfe.
  rewrite (train_setup_front _ _ _ _ _ _ _ _ _ Hparse Himp Hfd Hhd Hrd).
  rewrite Haso, bind_run.
  rewrite (plain_tagger_ok _ _ _ _ _ _ _ _ Hnew Hfe). reflexivity.
Qed.

(** C5: without an ASO model, [train] builds the tagger from the imported
    [fd] and [hd] and calls its feature extraction on the training reader
    with [options.minc] and [options.use_eph].  If that raises, the
    exception leaves [train] and the learner is never called; if it
    returns the heap [h3], the next event is the one call of the learner,
    on the same tagger and reader, with [options.reg], [options.epochs] and
    [options.shuffle], and no feature extraction or training follows.  The
    learner is run on [h3]: if it raises there, that exception is the
    outcome of [train] and the heap is [h3]; if it returns [h4], [train]
    goes on to the statistics and the dump from the heap [h4]. *)
Theorem feature_extraction_then_training cmdline options f_train f_model md
    fd hd rd h d :
  front_ok cmdline options f_train f_model md fd hd rd ->
  aso_given options = None ->
  GreedySVMTagger fd hd (VStr (lang options)) (verbose options) = inr d ->
  (forall e,
     feature_extraction (VRef (new_loc (<[new_loc h := rd]> h)))
       (VRef (new_loc h)) (minc options) (use_eph options)
       (<[new_loc (<[new_loc h := rd]> h) := d]> (<[new_loc h := rd]> h))
       = inl e ->
     train cmdline (init_world h) =
       (Raise e,
        World
          (<[new_loc (<[new_loc h := rd]> h) := d]> (<[new_loc h := rd]> h))
          (front_events options cmdline f_train
             ++ [EvNewTagger fd hd (VStr (lang options)) (verbose options);
                 EvFeatureExtraction
                   (VRef (new_loc (<[new_loc h := rd]> h)))
                   (VRef (new_loc h)) (minc options) (use_eph options)])
          []))
  /\ (forall h3,
       feature_extraction (VRef (new_loc (<[new_loc h := rd]> h)))
         (VRef (new_loc h)) (minc options) (use_eph options)
         (<[new_loc (<[new_loc h := rd]> h) := d]> (<[new_loc h := rd]> h))
         = inr h3 ->
       exists rest,
         w_trace (train cmdline (init_world h)).2 =
           front_events options cmdline f_train
             ++ [EvNewTagger fd hd (VStr (lang options)) (verbose options);
                 EvFeatureExtraction
                   (VRef (new_loc (<[new_loc h := rd]> h)))
                   (VRef (new_loc h)) (minc options) (use_eph options);
                 EvTrain (VRef (new_loc (<[new_loc h := rd]> h)))
                   (VRef (new_loc h)) (reg options) (epochs options)
                   (shuffle options)]
             ++ rest
         /\ Forall (fun ev => is_training_step ev = false) rest)
  /\ (forall h3 e,
       feature_extraction (VRef (new_loc (<[new_loc h := rd]> h)))
         (VRef (new_loc h)) (minc options) (use_eph options)
         (<[new_loc (<[new_loc h := rd]> h) := d]> (<[new_loc h := rd]> h))
         = inr h3 ->
       tagger_train (VRef (new_loc (<[new_loc h := rd]> h)))
         (VRef (new_loc h)) (reg options) (epochs options) (shuffle options)
         h3 = inl e ->
       train cmdline (init_world h) =
         (Raise e,
          World h3
            (front_events options cmdline f_train
               ++ [EvNewTagger fd hd (VStr (lang options))
                     (verbose options);
                   EvFeatureExtraction
                     (VRef (new_loc (<[new_loc h := rd]> h)))
                     (VRef (new_loc h)) (minc options) (use_eph options);
                   EvTrain (VRef (new_loc (<[new_loc h := rd]> h)))
                     (VRef (new_loc h)) (reg options) (epochs options)
                     (shuffle options)])
            []))
  /\ (forall h3 h4,
       feature_extraction (VRef (new_loc (<[new_loc h := rd]> h)))
         (VRef (new_loc h)) (minc options) (use_eph options)
         (<[new_loc (<[new_loc h := rd]> h) := d]> (<[new_loc h := rd]> h))
         = inr h3 ->
       tagger_train (VRef (new_loc (<[new_loc h := rd]> h)))
         (VRef (new_loc h)) (reg options) (epochs options) (shuffle options)
         h3 = inr h4 ->
       train cmdline (init_world h) =
         report_and_dump options f_model
           (VRef (new_loc (<[new_loc h := rd]> h)))
           (World h4
              (front_events options cmdline f_train
               ++ [EvNewTagger fd hd (VStr (lang options))
                     (verbose options);
                   EvFeatureExtraction
                     (VRef (new_loc (<[new_loc h := rd]> h)))
                     (VRef (new_loc h)) (minc options) (use_eph options);
                   EvTrain (VRef (new_loc (<[new_loc h := rd]> h)))
                     (VRef (new_loc h)) (reg options) (epochs options)
                     (shuffle options)])
              [])).
Proof.
  intros Hfront Haso Hnew.
  pose proof Hfront as (Hparse & Himp & Hfd & Hhd & Hrd).
  split; [| split; [| split]].
  - intros e Hfe. apply train_raise.
    rewrite (train_setup_front _ _ _ _ _ _ _ _ _ Hparse Himp Hfd Hhd Hrd).
    rewrite Haso, bind_run.
    rewrite (plain_tagger_failed _ _ _ _ _ _ _ _ Hnew Hfe). reflexivity.
  - intros h3 Hfe.
    rewrite (train_ret _ _ _ _
               (train_setup_plain_ok _ _ _ _ _ _ _ _ _ _ _
                  Hfront Haso Hnew Hfe)).
    match goal with
    | |- context [train_run ?s ?w] =>
        destruct (train_run_first options f_model (VRef (new_loc h))
                    (VRef (new_loc (<[new_loc h := rd]> h))) w)
          as (rest & Hrest & Hno)
    end.
    exists rest. split; [| exact Hno].
    rewrite Hrest. cbn [w_trace]. rewrite <- app_assoc. reflexivity.
  - intros h3 e Hfe Htrain.
    rewrite (train_ret _ _ _ _
               (train_setup_plain_ok _ _ _ _ _ _ _ _ _ _ _
                  Hfront Haso Hnew Hfe)).
    rewrite train_run_unfold. run. rewrite Htrain. run.
    rewrite <- app_assoc. reflexivity.
  - intros h3 h4 Hfe Htrain.
    rewrite (train_ret _ _ _ _
               (train_setup_plain_ok _ _ _ _ _ _ _ _ _ _ _
                  Hfront Haso Hnew Hfe)).
    rewrite train_run_unfold.
    rewrite bind_run. cbn [emit w_heap w_trace w_closed].
    rewrite bind_run. unfold call_ at 1. run. rewrite Htrain. run.
    rewrite <- app_assoc. reflexivity.
Qed.





(** ** The blocks of [predict] *)

Lemma pred_stream_emits pred_file :
  emits_only (writes_to pred_file) (pred_stream pred_file).
Proof.
  unfold pred_stream. destruct (String.eqb pred_file "-") eqn:Hdash.
  - apply emits_ret.
  - cbn [negb]. apply emits_bind.
    + apply emits_emit. cbn. repeat split. exact Hdash.
    + intros _. apply emits_bind; [apply emits_lift | intros _].
      apply emits_ret.
Qed.

Lemma pred_stream_returns pred_file :
  returns (fun f => f = stream_of pred_file) (pred_stream pred_file).
Proof.
  unfold pred_stream, stream_of. destruct (String.eqb pred_file "-").
  - apply returns_ret. reflexivity.
  - cbn [negb]. repeat returns_step. reflexivity.
Qed.

Lemma predict_writes_to prog model_file test_file pred_file :
  emits_only (writes_to pred_file)
    (predict prog [model_file; test_file; pred_file]).
Proof.
  unfold predict. destruct (wants_help _).
  - unfold usage. emits_auto.
  - do 11 (apply emits_bind; [unfold new_reader; emits_auto | intros ?]).
    eapply emits_bind_returns;
      [apply pred_stream_emits | apply pred_stream_returns |].
    intros f ->. emits_auto.
Qed.

Lemma predict_until_write prog model_file test_file pred_file h h1 model
    model_use_eph model_use_aso model_lang rd :
  wants_help [model_file; test_file; pred_file] = false ->
  model_ok model_file test_file h h1 model model_use_eph model_use_aso
    model_lang rd ->
  (pred_file = "-" \/ py_open pred_file "w+" = inr tt) ->
  predict prog [model_file; test_file; pred_file] (init_world h) =
    ((call_ (write_sent_predictions (VRef (new_loc h1)) model
               (stream_of pred_file) false);;
      close (stream_of pred_file);;
      emit EvTime;;
      printing Stderr (EvPrintElapsed Stderr)) : M unit)
      (World (<[new_loc h1 := rd]> h1)
         (predict_events model_file test_file pred_file model model_use_eph
            model_use_aso model_lang (VRef (new_loc h1)))
         []).
Proof.
  intros Hhelp (Hload & Heph & Haso & Hlang & Hrd) Hopen.
  unfold predict. rewrite Hhelp. run. rewrite Hload. run.
  rewrite Heph. run. rewrite Haso. run. rewrite Hlang. run.
  rewrite (new_reader_ok _ _ _ _ _ _ Hrd).
  unfold pred_stream, predict_events, predict_prologue, stream_of.
  destruct Hopen as [-> | Hopen].
  - reflexivity.
  - destruct (String.eqb pred_file "-"); [reflexivity |].
    run. rewrite Hopen. reflexivity.
Qed.

Lemma predict_ok prog model_file test_file pred_file h h1 model
    model_use_eph model_use_aso model_lang rd h2 :
  wants_help [model_file; test_file; pred_file] = false ->
  model_ok model_file test_file h h1 model model_use_eph model_use_aso
    model_lang rd ->
  (pred_file = "-" \/ py_open pred_file "w+" = inr tt) ->
  write_sent_predictions (VRef (new_loc h1)) model (stream_of pred_file)
    false (<[new_loc h1 := rd]> h1) = inr h2 ->
  predict prog [model_file; test_file; pred_file] (init_world h) =
    (Ret tt,
     World h2
       (predict_events model_file test_file pred_file model model_use_eph
          model_use_aso model_lang (VRef (new_loc h1))
        ++ predict_epilogue pred_file)
       [stream_of pred_file]).
Proof.
  intros Hhelp Hmodel Hopen Hwrite.
  rewrite (predict_until_write _ _ _ _ _ _ _ _ _ _ _ Hhelp Hmodel Hopen).
  run. rewrite Hwrite. run. unfold predict_epilogue, stream_of.
  destruct (String.eqb pred_file "-"); cbn [stream_eqb orb];
    rewrite <- !app_assoc; reflexivity.
Qed.

Lemma predict_open_failed prog model_file test_file pred_file h h1 model
    model_use_eph model_use_aso model_lang rd e :
  wants_help [model_file; test_file; pred_file] = false ->
  model_ok model_file test_file h h1 model model_use_eph model_use_aso
    model_lang rd ->
  String.eqb pred_file "-" = false ->
  py_open pred_file "w+" = inl e ->
  predict prog [model_file; test_file; pred_file] (init_world h) =
    (Raise e,
     World (<[new_loc h1 := rd]> h1)
       (predict_prologue model_file test_file model_use_eph model_use_aso
          model_lang
        ++ [EvOpen pred_file "w+"])
       []).
Proof.
  intros Hhelp (Hload & Heph & Haso & Hlang & Hrd) Hdash Hopen.
  unfold predict. rewrite Hhelp. run. rewrite Hload. run.
  rewrite Heph. run. rewrite Haso. run. rewrite Hlang. run.
  rewrite (new_reader_ok _ _ _ _ _ _ Hrd).
  unfold pred_stream. rewrite Hdash. run. rewrite Hopen. reflexivity.
Qed.

Lemma predict_load_failed prog model_file test_file pred_file h e :
  wants_help [model_file; test_file; pred_file] = false ->
  compressed_load model_file h = inl e ->
  predict prog [model_file; test_file; pred_file] (init_world h) =
    (Raise e,
     World h
       [EvPrint Stderr [VStr "loading tagger..."];
        EvFlush Stderr;
        EvLoad model_file]
       []).
Proof.
  intros Hhelp Hload. unfold predict. rewrite Hhelp. run. rewrite Hload.
  reflexivity.
Qed.

(** ** The claims about [predict] *)

(** C6, amended: for three arguments none of which is [-h] or [--help],
    every call of the prediction writer is on the stream that [PRED_FILE]
    names, which is standard output exactly when [PRED_FILE] is ["-"]; the
    only file ever opened is [PRED_FILE], in mode [w+], and only when it is
    not ["-"]; and once the model and the reader are there and the file
    opens, the writer is called.  The run is then the writer's: with
    [PRED_FILE] equal to ["-"] nothing is opened and the writer is run on
    standard output; with any other [PRED_FILE] that file is opened in mode
    [w+] and, if that succeeds, the writer is run on it, and if it fails
    the exception leaves [predict] and the writer is not called.  When the
    writer returns the heap [h2], [predict] returns with the heap [h2]
    after closing that one stream; when the writer raises, [predict] raises
    the same exception. *)
Theorem predictions_go_to_pred_file prog model_file test_file pred_file h :
  wants_help [model_file; test_file; pred_file] = false ->
  Forall (writes_to pred_file)
    (w_trace (predict prog [model_file; test_file; pred_file]
                (init_world h)).2)
  /\ (stream_of pred_file = Stdout <-> pred_file = "-")
  /\ (forall h1 model model_use_eph model_use_aso model_lang rd,
        model_ok model_file test_file h h1 model model_use_eph model_use_aso
          model_lang rd ->
        (pred_file = "-" \/ py_open pred_file "w+" = inr tt) ->
        exists rest,
          w_trace (predict prog [model_file; test_file; pred_file]
                     (init_world h)).2 =
            predict_events model_file test_file pred_file model
              model_use_eph model_use_aso model_lang (VRef (new_loc h1))
            ++ rest)
  /\ (forall h1 model model_use_eph model_use_aso model_lang rd,
        model_ok model_file test_file h h1 model model_use_eph model_use_aso
          model_lang rd ->
        (pred_file = "-" ->
         forall h2,
           write_sent_predictions (VRef (new_loc h1)) model Stdout false
             (<[new_loc h1 := rd]> h1) = inr h2 ->
           predict prog [model_file; test_file; pred_file] (init_world h) =
             (Ret tt,
              World h2
                (predict_prologue model_file test_file model_use_eph
                  model_use_aso model_lang
                 ++ [EvTime;
                     EvWritePredictions (VRef (new_loc h1)) model Stdout
                       false;
                     EvClose Stdout;
                     EvTime;
                     EvPrintElapsed Stderr])
                [Stdout]))
        /\ (pred_file <> "-" ->
            py_open pred_file "w+" = inr tt ->
            forall h2,
              write_sent_predictions (VRef (new_loc h1)) model
                (FileStream pred_file) false (<[new_loc h1 := rd]> h1)
                = inr h2 ->
              predict prog [model_file; test_file; pred_file] (init_world h)
                = (Ret tt,
                   World h2
                     (predict_prologue model_file test_file model_use_eph
                  model_use_aso model_lang
                      ++ [EvOpen pred_file "w+";
                          EvTime;
                          EvWritePredictions (VRef (new_loc h1)) model
                            (FileStream pred_file) false;
                          EvClose (FileStream pred_file);
                          EvTime;
                          EvPrintElapsed Stderr])
                     [FileStream pred_file]))
        /\ (pred_file <> "-" ->
            forall e,
              py_open pred_file "w+" = inl e ->
              predict prog [model_file; test_file; pred_file] (init_world h)
                = (Raise e,
                   World (<[new_loc h1 := rd]> h1)
                     (predict_prologue model_file test_file model_use_eph
                  model_use_aso model_lang
                      ++ [EvOpen pred_file "w+"])
                     []))
        /\ ((pred_file = "-" \/ py_open pred_file "w+" = inr tt) ->
            forall e,
              write_sent_predictions (VRef (new_loc h1)) model
                (if String.eqb pred_file "-" then Stdout
                 else FileStream pred_file)
                false (<[new_loc h1 := rd]> h1) = inl e ->
              predict prog [model_file; test_file; pred_file] (init_world h)
                = (Raise e,
                   World (<[new_loc h1 := rd]> h1)
                     (predict_prologue model_file test_file model_use_eph
                  model_use_aso model_lang
                      ++ (if String.eqb pred_file "-" then []
                          else [EvOpen pred_file "w+"])
                      ++ [EvTime;
                          EvWritePredictions (VRef (new_loc h1)) model
                            (if String.eqb pred_file "-" then Stdout
                             else FileStream pred_file)
                            false])
                     []))).
Proof.
  intros Hhelp. split; [| split; [| split]].
  - apply emits_only_init, predict_writes_to.
  - unfold stream_of. destruct (String.eqb pred_file "-") eqn:Hdash.
    + apply String.eqb_eq in Hdash.
      split; intros _; [exact Hdash | reflexivity].
    + apply String.eqb_neq in Hdash.
      split; [discriminate | intros Heq; contradiction].
  - intros h1 model ue ua l rd Hmodel Hopen.
    rewrite (predict_until_write _ _ _ _ _ _ _ _ _ _ _ Hhelp Hmodel Hopen).
    match goal with
    | |- context [w_trace (?k ?w1).2] =>
        assert (Hk : emits_only (fun _ => True) k) by emits_auto;
        destruct (Hk w1) as (rest & Hrest & _)
    end.
    exists rest. exact Hrest.
  - intros h1 model ue ua l rd Hmodel. split; [| split; [| split]].
    + intros Hdash h2 Hwrite. subst pred_file.
      rewrite (predict_ok _ _ _ _ _ _ _ _ _ _ _ h2 Hhelp Hmodel
                 (or_introl eq_refl) Hwrite).
      reflexivity.
    + intros Hdash Hopen h2 Hwrite.
      apply String.eqb_neq in Hdash.
      assert (Hs : stream_of pred_file = FileStream pred_file)
        by (unfold stream_of; rewrite Hdash; reflexivity).
      rewrite <- Hs in Hwrite.
      rewrite (predict_ok _ _ _ _ _ _ _ _ _ _ _ h2 Hhelp Hmodel
                 (or_intror Hopen) Hwrite).
      unfold predict_events, predict_epilogue. rewrite Hs, Hdash.
      reflexivity.
    + intros Hdash e Hopen. apply String.eqb_neq in Hdash.
      exact (predict_open_failed _ _ _ _ _ _ _ _ _ _ _ _ Hhelp Hmodel
               Hdash Hopen).
    + intros Hopen e Hwrite.
      rewrite (predict_until_write _ _ _ _ _ _ _ _ _ _ _ Hhelp Hmodel Hopen).
      unfold predict_events, stream_of. run. rewrite Hwrite. reflexivity.
Qed.

(** C8: an exception from [compressed_load] or from [open] leaves
    [predict] as it is: the script makes the call once, writes nothing
    after it, and the interpreter ends with status 1. *)
Theorem predict_failures_propagate prog model_file test_file pred_file h :
  wants_help [model_file; test_file; pred_file] = false ->
  (forall e,
     compressed_load model_file h = inl e ->
     (predict prog [model_file; test_file; pred_file] (init_world h)).1
       = Raise e
     /\ exit_status
          (predict prog [model_file; test_file; pred_file] (init_world h)).1
        <> 0
     /\ exists t,
          w_trace (predict prog [model_file; test_file; pred_file]
                     (init_world h)).2 = t ++ [EvLoad model_file]
          /\ existsb is_load t = false)
  /\ (forall e h1 model model_use_eph model_use_aso model_lang rd,
        model_ok model_file test_file h h1 model model_use_eph model_use_aso
          model_lang rd ->
        String.eqb pred_file "-" = false ->
        py_open pred_file "w+" = inl e ->
        (predict prog [model_file; test_file; pred_file] (init_world h)).1
          = Raise e
        /\ exit_status
             (predict prog [model_file; test_file; pred_file]
                (init_world h)).1
           <> 0
        /\ exists t,
             w_trace (predict prog [model_file; test_file; pred_file]
                        (init_world h)).2 = t ++ [EvOpen pred_file "w+"]
             /\ existsb is_open t = false).
Proof.
  intros Hhelp. split.
  - intros e Hload. rewrite (predict_load_failed _ _ _ _ _ _ Hhelp Hload).
    split; [reflexivity |]. split; [discriminate |].
    exists [EvPrint Stderr [VStr "loading tagger..."]; EvFlush Stderr].
    split; reflexivity.
  - intros e h1 model ue ua l rd Hmodel Hdash Hopen.
    rewrite (predict_open_failed _ _ _ _ _ _ _ _ _ _ _ _
               Hhelp Hmodel Hdash Hopen).
    split; [reflexivity |]. split; [discriminate |].
    eexists. split; reflexivity.
Qed.

(** C10: once the prediction writer has returned, [predict] has called
    [close()] on the stream it wrote to, whichever it is; with ["-"] that
    stream is [sys.stdout], which is closed when [predict] returns, so that
    a later [print] raises [ValueError]. *)
Theorem predict_closes_output prog model_file test_file pred_file h h1 model
    model_use_eph model_use_aso model_lang rd h2 :
  wants_help [model_file; test_file; pred_file] = false ->
  model_ok model_file test_file h h1 model model_use_eph model_use_aso
    model_lang rd ->
  (pred_file = "-" \/ py_open pred_file "w+" = inr tt) ->
  write_sent_predictions (VRef (new_loc h1)) model (stream_of pred_file)
    false (<[new_loc h1 := rd]> h1) = inr h2 ->
  (predict prog [model_file; test_file; pred_file] (init_world h)).1 = Ret tt
  /\ w_closed (predict prog [model_file; test_file; pred_file]
                 (init_world h)).2 = [stream_of pred_file]
  /\ In (EvClose (stream_of pred_file))
       (w_trace (predict prog [model_file; test_file; pred_file]
                   (init_world h)).2)
  /\ (pred_file = "-" ->
      is_closed Stdout
        (predict prog [model_file; test_file; pred_file] (init_world h)).2
        = true
      /\ forall items,
           (print items
              (predict prog [model_file; test_file; pred_file]
                 (init_world h)).2).1 = Raise ValueError).
Proof.
  intros Hhelp Hmodel Hopen Hwrite.
  rewrite (predict_ok _ _ _ _ _ _ _ _ _ _ _ _ Hhelp Hmodel Hopen Hwrite).
  cbn [fst snd w_closed w_trace]. split; [reflexivity |].
  split; [reflexivity |]. split.
  - apply in_or_app. right. left. reflexivity.
  - intros ->. split; reflexivity.
Qed.

(** ** Further properties of [train]: what each failure leaves behind *)

(** X1: the handler of lines 118-121 is for [ImportError] alone: any other
    exception of [__import__] leaves [train] as it is, with no message
    printed and no [sys.exit]. *)
Theorem other_import_errors_propagate cmdline options f_train f_model e h :
  parse_args train_args_parser cmdline = inr (options, [f_train; f_model]) ->
  py_import ("nut.ner.features." +:+ feature_module options) = inl e ->
  e <> ImportError ->
  train cmdline (init_world h) =
    (Raise e,
     World h
       [EvParseArgs cmdline;
        EvImport ("nut.ner.features." +:+ feature_module options)]
       []).
Proof.
  intros Hparse Himp Hne. apply train_raise.
  unfold train_setup, import_feature_module. run. rewrite Hparse. run.
  rewrite Himp. run. destruct e; try reflexivity. contradiction Hne.
  reflexivity.
Qed.

(** X2: a module that imports but has no [fd], or no [hd], makes [train]
    raise [AttributeError]: the [try] block does not catch it, no reader is
    built and nothing is printed. *)
Theorem module_without_extractors cmdline options f_train f_model md h :
  parse_args train_args_parser cmdline = inr (options, [f_train; f_model]) ->
  py_import ("nut.ner.features." +:+ feature_module options) = inr md ->
  md !! "fd" = None \/ md !! "hd" = None ->
  train cmdline (init_world h) =
    (Raise AttributeError,
     World h
       [EvParseArgs cmdline;
        EvImport ("nut.ner.features." +:+ feature_module options)]
       []).
Proof.
  intros Hparse Himp Hmiss. apply train_raise.
  unfold train_setup, import_feature_module. run. rewrite Hparse. run.
  rewrite Himp. run.
  destruct (md !! "fd") as [fd |] eqn:Hfd; [| reflexivity].
  destruct Hmiss as [Hmiss | Hmiss]; [discriminate Hmiss |].
  rewrite Hmiss. reflexivity.
Qed.

(** X3: the reader is built before [options.aso] is looked at: when
    [Conll03Reader] raises, the exception leaves [train], and neither an
    ASO model is loaded nor a tagger constructed, with or without
    [--aso]. *)
Theorem reader_failure_stops_train cmdline options f_train f_model md fd hd
    e h :
  parse_args train_args_parser cmdline = inr (options, [f_train; f_model]) ->
  py_import ("nut.ner.features." +:+ feature_module options) = inr md ->
  md !! "fd" = Some fd ->
  md !! "hd" = Some hd ->
  Conll03Reader f_train (VStr (lang options)) = inl e ->
  train cmdline (init_world h) =
    (Raise e, World h (front_events options cmdline f_train) []).
Proof.
  intros Hparse Himp Hfd Hhd Hrd. apply train_raise.
  unfold train_setup. run. rewrite Hparse. run.
  rewrite (import_ok _ _ _ _ _ _ Himp Hfd Hhd). run.
  unfold new_reader. run. rewrite Hrd. reflexivity.
Qed.

(** The ASO branch up to the constructor call, when the loaded object has
    no [fd], no [hd] or no [lang]. *)
Lemma aso_tagger_missing options path h t h2 aso_model :
  compressed_load path h = inr (h2, aso_model) ->
  getattr h2 aso_model "fd" = None \/
  getattr h2 aso_model "hd" = None \/
  getattr h2 aso_model "lang" = None ->
  aso_tagger options path (World h t []) =
    (Raise AttributeError,
     World h2
       (t ++ [EvPrint Stdout [VStr "Loading ASO model..."];
              EvFlush Stdout;
              EvLoad path;
              EvPrint Stdout [VStr "[done]"]])
       []).
Proof.
  intros Hload Hmiss. unfold aso_tagger. run. rewrite Hload. run.
  rewrite <- !app_assoc. cbn [app].
  destruct (getattr h2 aso_model "fd") as [fd |]; [| reflexivity].
  destruct (getattr h2 aso_model "hd") as [hd |]; [| reflexivity].
  destruct Hmiss as [Hmiss | [Hmiss | Hmiss]]; try discriminate Hmiss.
  rewrite Hmiss. reflexivity.
Qed.

(** X4: when [compressed_load] raises on the ASO model, the exception
    leaves [train] right after the message "Loading ASO model...": "[done]"
    is not printed and no tagger is constructed. *)
Theorem aso_load_failure cmdline options f_train f_model md fd hd rd path e
    h :
  front_ok cmdline options f_train f_model md fd hd rd ->
  aso_given options = Some path ->
  compressed_load path (<[new_loc h := rd]> h) = inl e ->
  train cmdline (init_world h) =
    (Raise e,
     World (<[new_loc h := rd]> h)
       (front_events options cmdline f_train
          ++ [EvPrint Stdout [VStr "Loading ASO model..."];
              EvFlush Stdout;
              EvLoad path])
       []).
Proof.
  intros (Hparse & Himp & Hfd & Hhd & Hrd) Haso Hload. apply train_raise.
  rewrite (train_setup_front _ _ _ _ _ _ _ _ _ Hparse Himp Hfd Hhd Hrd).
  rewrite Haso, bind_run. unfold aso_tagger. run. rewrite Hload.
  reflexivity.
Qed.

(** X5: when what [compressed_load] returns has no [fd], no [hd] or no
    [lang] (a pickle of something else than an ASO model), [train] raises
    [AttributeError] before it constructs a tagger. *)
Theorem aso_without_extractors cmdline options f_train f_model md fd hd rd
    path h2 aso_model h :
  front_ok cmdline options f_train f_model md fd hd rd ->
  aso_given options = Some path ->
  compressed_load path (<[new_loc h := rd]> h) = inr (h2, aso_model) ->
  getattr h2 aso_model "fd" = None \/
  getattr h2 aso_model "hd" = None \/
  getattr h2 aso_model "lang" = None ->
  train cmdline (init_world h) =
    (Raise AttributeError,
     World h2
       (front_events options cmdline f_train
          ++ [EvPrint Stdout [VStr "Loading ASO model..."];
              EvFlush Stdout;
              EvLoad path;
              EvPrint Stdout [VStr "[done]"]])
       []).
Proof.
  intros (Hparse & Himp & Hfd & Hhd & Hrd) Haso Hload Hmiss.
  apply train_raise.
  rewrite (train_setup_front _ _ _ _ _ _ _ _ _ Hparse Himp Hfd Hhd Hrd).
  rewrite Haso, bind_run.
  rewrite (aso_tagger_missing _ _ _ _ _ _ Hload Hmiss). reflexivity.
Qed.

(** X6: the assignments of lines 140-150 are not atomic.  When the ASO
    model passes both checks and has a [vocabulary] but no [tags], [train]
    raises [AttributeError] with [model.V] already assigned: the tagger is
    the fresh instance plus [V], and nothing else of the binding. *)
Theorem binding_is_not_atomic cmdline options f_train f_model md fd hd rd
    path h2 aso_model afd ahd alang aeph avoc d h :
  front_ok cmdline options f_train f_model md fd hd rd ->
  aso_given options = Some path ->
  compressed_load path (<[new_loc h := rd]> h) = inr (h2, aso_model) ->
  getattr h2 aso_model "fd" = Some afd ->
  getattr h2 aso_model "hd" = Some ahd ->
  getattr h2 aso_model "lang" = Some alang ->
  getattr h2 aso_model "use_eph" = Some aeph ->
  getattr h2 aso_model "vocabulary" = Some avoc ->
  getattr h2 aso_model "tags" = None ->
  GreedySVMTagger afd ahd alang (verbose options) = inr d ->
  py_ne (VBool (use_eph options)) aeph = false ->
  py_ne (VStr (lang options)) alang = false ->
  train cmdline (init_world h) =
    (Raise AttributeError,
     World (<[new_loc h2 := <["V" := avoc]> d]> h2)
       (front_events options cmdline f_train
          ++ aso_prologue options path afd ahd alang
          ++ [EvSetAttr (VRef (new_loc h2)) "V" avoc])
       []).
Proof.
  intros (Hparse & Himp & Hfd & Hhd & Hrd) Haso Hload Hafd Hahd Halang
    Haeph Havoc Hatags Hnew Hceph Hclang.
  assert (Hne : aso_model <> VRef (new_loc h2))
    by (eapply getattr_Some_old, Hafd).
  apply train_raise.
  rewrite (train_setup_front _ _ _ _ _ _ _ _ _ Hparse Himp Hfd Hhd Hrd).
  rewrite Haso, bind_run. unfold aso_tagger. run. rewrite Hload. run.
  rewrite Hafd, Hahd, Halang. run.
  rewrite (new_tagger_ok _ _ _ _ _ _ _ _ Hnew). run.
  rewrite (getattr_insert_ne _ _ _ _ _ Hne), Haeph, Hceph. run.
  rewrite (getattr_insert_ne _ _ _ _ _ Hne), Halang, Hclang. run.
  rewrite (getattr_insert_ne _ _ _ _ _ Hne), Havoc, setattr_insert_eq. run.
  rewrite (getattr_insert_ne _ _ _ _ _ Hne), Hatags.
  unfold front_events, aso_prologue. reflexivity.
Qed.

(** ** Rules for [closes_only] *)

Section ClosesOnly.
Context (S : stream -> Prop).

Lemma closes_nothing {A} (m : M A) :
  (forall w, w_closed (m w).2 = w_closed w) -> closes_only S m.
Proof.
  intros Hm w. exists []. rewrite Hm. split; [reflexivity | constructor].
Qed.

Lemma closes_ret {A} (a : A) : closes_only S (mret a).
Proof. apply closes_nothing. reflexivity. Qed.

Lemma closes_raise {A} e : closes_only S (@raise A e).
Proof. apply closes_nothing. reflexivity. Qed.

Lemma closes_sys_exit {A} c : closes_only S (@sys_exit A c).
Proof. apply closes_nothing. reflexivity. Qed.

Lemma closes_emit ev : closes_only S (emit ev).
Proof. apply closes_nothing. reflexivity. Qed.

Lemma closes_get_heap : closes_only S get_heap.
Proof. apply closes_nothing. reflexivity. Qed.

Lemma closes_put_heap h : closes_only S (put_heap h).
Proof. apply closes_nothing. reflexivity. Qed.

Lemma closes_lift {A} (r : exn + A) : closes_only S (lift r).
Proof. destruct r; [apply closes_raise | apply closes_ret]. Qed.

Lemma closes_printing s ev : closes_only S (printing s ev).
Proof.
  apply closes_nothing. intros w. unfold printing.
  destruct (is_closed s w); reflexivity.
Qed.

Lemma closes_flush s : closes_only S (flush s).
Proof.
  apply closes_nothing. intros w. unfold flush.
  destruct (is_closed s w); reflexivity.
Qed.

Lemma closes_close s : S s -> closes_only S (close s).
Proof.
  intros Hs w. exists [s]. split; [reflexivity |].
  constructor; [exact Hs | constructor].
Qed.

Lemma closes_bind {A B} (m : M A) (f : A -> M B) :
  closes_only S m -> (forall a, closes_only S (f a)) ->
  closes_only S (m ≫= f).
Proof.
  intros Hm Hf w. destruct (Hm w) as (l & Hl & HS).
  unfold mbind, M_bind. destruct (m w) as [[a | e | c] w']; simpl in *.
  - destruct (Hf a w') as (l' & Hl' & HS'). exists (l' ++ l).
    rewrite Hl', Hl, app_assoc. split; [reflexivity |].
    apply Forall_app. split; assumption.
  - exists l. split; assumption.
  - exists l. split; assumption.
Qed.

Lemma closes_bind_returns {A B} (Q : A -> Prop) (m : M A) (f : A -> M B) :
  closes_only S m -> returns Q m -> (forall a, Q a -> closes_only S (f a)) ->
  closes_only S (m ≫= f).
Proof.
  intros Hm HQ Hf w. destruct (Hm w) as (l & Hl & HS). specialize (HQ w).
  unfold mbind, M_bind. destruct (m w) as [[a | e | c] w']; simpl in *.
  - destruct (Hf a HQ w') as (l' & Hl' & HS'). exists (l' ++ l).
    rewrite Hl', Hl, app_assoc. split; [reflexivity |].
    apply Forall_app. split; assumption.
  - exists l. split; assumption.
  - exists l. split; assumption.
Qed.

Lemma closes_try {A} (body handler : M A) :
  closes_only S body -> closes_only S handler ->
  closes_only S (try_except_ImportError body handler).
Proof.
  intros Hb Hh w. destruct (Hb w) as (l & Hl & HS).
  unfold try_except_ImportError.
  destruct (body w) as [[a | e | c] w']; simpl in *;
    try (exists l; split; assumption).
  destruct e; try (exists l; split; assumption).
  destruct (Hh w') as (l' & Hl' & HS'). exists (l' ++ l).
  rewrite Hl', Hl, app_assoc. split; [reflexivity |].
  apply Forall_app. split; assumption.
Qed.

End ClosesOnly.

Ltac closes_step :=
  match goal with
  | |- closes_only _ (_ ≫= _) => apply closes_bind
  | |- closes_only _ (mret _) => apply closes_ret
  | |- closes_only _ (raise _) => apply closes_raise
  | |- closes_only _ (sys_exit _) => apply closes_sys_exit
  | |- closes_only _ (emit _) => apply closes_emit
  | |- closes_only _ get_heap => apply closes_get_heap
  | |- closes_only _ (put_heap _) => apply closes_put_heap
  | |- closes_only _ (lift _) => apply closes_lift
  | |- closes_only _ (printing _ _) => apply closes_printing
  | |- closes_only _ (flush _) => apply closes_flush
  | |- closes_only _ (close _) => apply closes_close
  | |- closes_only _ (try_except_ImportError _ _) => apply closes_try
  | |- closes_only _ (match ?x with _ => _ end) => destruct x
  | |- forall _, _ => intro
  end.

Ltac closes_auto :=
  unfold print, print_to, call, call_, get_attr, set_attr, alloc;
  repeat closes_step.

Lemma train_setup_closes_nothing cmdline :
  closes_only (fun _ => False) (train_setup cmdline).
Proof.
  unfold train_setup, import_feature_module, new_reader, aso_tagger,
    plain_tagger, new_tagger, parser_error.
  closes_auto.
Qed.

Lemma train_run_closes_nothing s : closes_only (fun _ => False) (train_run s).
Proof. destruct s as [[[o f] r] m]. unfold train_run. closes_auto. Qed.

Lemma closes_only_False {A} (m : M A) w :
  closes_only (fun _ => False) m -> w_closed (m w).2 = w_closed w.
Proof.
  intros Hm. destruct (Hm w) as (l & Hl & HS). rewrite Hl.
  destruct HS as [| s l []]. reflexivity.
Qed.

(** X7: [train] never closes a stream: whatever the run, the streams that
    are closed afterwards are those that were closed before, so standard
    output stays usable. *)
Theorem train_closes_nothing cmdline w :
  w_closed (train cmdline w).2 = w_closed w
  /\ (is_closed Stdout w = false ->
      forall items,
        (print items (train cmdline w).2).1 = Ret tt).
Proof.
  assert (Hclosed : w_closed (train cmdline w).2 = w_closed w).
  { apply closes_only_False. unfold train. apply closes_bind.
    - apply train_setup_closes_nothing.
    - apply train_run_closes_nothing. }
  split; [exact Hclosed |].
  intros Hopen items. unfold print, print_to, printing, is_closed in *.
  rewrite Hclosed, Hopen. reflexivity.
Qed.

(** ** Further properties of [train]: learning, statistics, persistence *)



Lemma train_setup_quiet cmdline :
  emits_only
    (fun ev => is_train ev = false /\ is_dump ev = false
               /\ is_report ev = false)
    (train_setup cmdline).
Proof.
  unfold train_setup, import_feature_module, new_reader, aso_tagger,
    plain_tagger, new_tagger, parser_error.
  emits_auto.
Qed.


(** X9: when the learner raises, the exception leaves [train] and nothing
    is dumped: the model file is not written. *)
Theorem failed_training_saves_nothing cmdline options f_model reader model
    w' e h :
  train_setup cmdline (init_world h)
    = (Ret (options, f_model, reader, model), w') ->
  tagger_train model reader (reg options) (epochs options) (shuffle options)
    (w_heap w') = inl e ->
  train cmdline (init_world h) =
    (Raise e,
     World (w_heap w')
       (w_trace w'
          ++ [EvTrain model reader (reg options) (epochs options)
                (shuffle options)])
       (w_closed w'))
  /\ Forall (fun ev => is_dump ev = false)
       (w_trace (train cmdline (init_world h)).2).
Proof.
  intros Hsetup Hfail.
  assert (Hrun : train cmdline (init_world h) =
    (Raise e,
     World (w_heap w')
       (w_trace w'
          ++ [EvTrain model reader (reg options) (epochs options)
                (shuffle options)])
       (w_closed w'))).
  { rewrite (train_ret _ _ _ _ Hsetup). destruct w' as [hw tw cw].
    cbn in Hfail. unfold train_run. run. rewrite Hfail. reflexivity. }
  split; [exact Hrun |]. rewrite Hrun. cbn [snd w_trace].
  destruct (train_setup_quiet cmdline (init_world h)) as (pre & Hpre & Hq).
  rewrite Hsetup in Hpre. cbn in Hpre. rewrite Hpre.
  apply Forall_app. split; [| repeat constructor].
  eapply Forall_impl; [exact Hq |]. cbn. intros ev (_ & Hdump & _).
  exact Hdump.
Qed.

(** X10: with [--stats] on a tagger whose dataset has [n = 0], the learner
    has run and the description is printed, but the average raises
    [ZeroDivisionError] and the model is never dumped. *)
Theorem stats_on_empty_dataset cmdline options f_model reader model w' h1 h2
    shapes h :
  train_setup cmdline (init_world h)
    = (Ret (options, f_model, reader, model), w') ->
  stats options = true ->
  tagger_train model reader (reg options) (epochs options) (shuffle options)
    (w_heap w') = inr h1 ->
  describe model 40 h1 = inr h2 ->
  iterinstances model h2 = inr shapes ->
  dataset_n model h2 = inr 0 ->
  train cmdline (init_world h) =
    (Raise ZeroDivisionError,
     World h2
       (w_trace w'
          ++ [EvTrain model reader (reg options) (epochs options)
                (shuffle options);
              EvPrint Stdout [VStr (str_repeat "_" 80)];
              EvPrint Stdout [VStr (" Stats" +:+ nl)];
              EvDescribe model 40;
              EvIterInstances model])
       [])
  /\ Forall (fun ev => is_dump ev = false)
       (w_trace (train cmdline (init_world h)).2).
Proof.
  intros Hsetup Hstats Htrain Hdescribe Hiter Hn.
  assert (Hclosed : w_closed w' = []).
  { pose proof (closes_only_False _ (init_world h)
                  (train_setup_closes_nothing cmdline)) as Hc.
    rewrite Hsetup in Hc. exact Hc. }
  assert (Hrun : train cmdline (init_world h) =
    (Raise ZeroDivisionError,
     World h2
       (w_trace w'
          ++ [EvTrain model reader (reg options) (epochs options)
                (shuffle options);
              EvPrint Stdout [VStr (str_repeat "_" 80)];
              EvPrint Stdout [VStr (" Stats" +:+ nl)];
              EvDescribe model 40;
              EvIterInstances model])
       [])).
  { rewrite (train_ret _ _ _ _ Hsetup). destruct w' as [hw tw cw].
    cbn in Hclosed, Htrain. subst cw. unfold train_run. run.
    rewrite Htrain. run. rewrite Hstats. run. rewrite Hdescribe. run.
    rewrite Hiter. run. rewrite Hn. run. rewrite <- !app_assoc.
    reflexivity. }
  split; [exact Hrun |]. rewrite Hrun. cbn [snd w_trace].
  destruct (train_setup_quiet cmdline (init_world h)) as (pre & Hpre & Hq).
  rewrite Hsetup in Hpre. cbn in Hpre. rewrite Hpre.
  apply Forall_app. split; [| repeat constructor].
  eapply Forall_impl; [exact Hq |]. cbn. intros ev (_ & Hdump & _).
  exact Hdump.
Qed.

(** X11: without [--stats], no run of [train] calls [describe], iterates
    over the dataset or prints an average. *)
Theorem no_stats_no_report cmdline options f_train f_model h :
  parse_args train_args_parser cmdline = inr (options, [f_train; f_model]) ->
  stats options = false ->
  Forall (fun ev => is_report ev = false)
    (w_trace (train cmdline (init_world h)).2).
Proof.
  intros Hparse Hstats. apply emits_only_init. unfold train.
  eapply emits_bind_returns;
    [| apply (train_setup_returns _ _ _ _ Hparse) |].
  - intros w. destruct (train_setup_quiet cmdline w) as (l & Hl & Hq).
    exists l. split; [exact Hl |].
    eapply Forall_impl; [exact Hq |]. cbn. intros ev (_ & _ & Hr). exact Hr.
  - intros [[[o f] r] m] [= -> ->]. unfold train_run. rewrite Hstats.
    emits_auto.
Qed.

(** X12: in every run of [train], whether it ends well or not, the
    learner is called at most once, and no feature extraction or training
    follows that call. *)
Theorem learner_called_at_most_once cmdline h :
  exists pre post,
    w_trace (train cmdline (init_world h)).2 = pre ++ post
    /\ Forall (fun ev => is_train ev = false) pre
    /\ (post = [] \/
        exists model reader reg epochs shuffle rest,
          post = EvTrain model reader reg epochs shuffle :: rest
          /\ Forall (fun ev => is_training_step ev = false) rest).
Proof.
  unfold train. rewrite bind_run.
  destruct (train_setup_quiet cmdline (init_world h)) as (pre & Hpre & Hq).
  assert (Hpre_ok : Forall (fun ev => is_train ev = false) pre).
  { eapply Forall_impl; [exact Hq |]. cbn. intros ev (Ht & _). exact Ht. }
  cbn [init_world w_trace app] in Hpre.
  destruct (train_setup cmdline (init_world h)) as [[s | e | c] w'];
    cbn [snd] in *.
  - destruct s as [[[o f] r] m].
    destruct (train_run_first o f r m w') as (rest & Hrest & Hno).
    exists pre, (EvTrain m r (reg o) (epochs o) (shuffle o) :: rest).
    rewrite Hrest, Hpre. split; [reflexivity |]. split; [exact Hpre_ok |].
    right. exists m, r, (reg o), (epochs o), (shuffle o), rest.
    split; [reflexivity | exact Hno].
  - exists pre, []. rewrite app_nil_r. auto.
  - exists pre, []. rewrite app_nil_r. auto.
Qed.

(** X13: the truth value of [options.aso] selects the branch.  When the
    option is absent or is the empty string, no run of [train] loads
    anything or assigns an attribute; when it is a non-empty string, every
    load is of that path and feature extraction is never called. *)
Theorem aso_option_selects_branch cmdline options f_train f_model h :
  parse_args train_args_parser cmdline = inr (options, [f_train; f_model]) ->
  (aso options = None \/ aso options = Some EmptyString ->
   Forall (fun ev => is_load ev = false /\ is_set_attr ev = false)
     (w_trace (train cmdline (init_world h)).2))
  /\ (forall path,
       aso options = Some path ->
       path <> EmptyString ->
       Forall (aso_branch_event path)
         (w_trace (train cmdline (init_world h)).2)).
Proof.
  intros Hparse. split.
  - intros Hempty.
    assert (Haso : aso_given options = None).
    { unfold aso_given. destruct Hempty as [-> | ->]; reflexivity. }
    apply emits_only_init. unfold train. apply emits_bind.
    + unfold train_setup. apply emits_bind; [emits_auto | intros _].
      rewrite Hparse. apply emits_ret_bind. rewrite Haso.
      unfold import_feature_module, new_reader, plain_tagger, new_tagger.
      emits_auto.
    + intros [[[o f] r] m]. unfold train_run. emits_auto.
  - intros path Hsome Hne.
    assert (Haso : aso_given options = Some path).
    { unfold aso_given. rewrite Hsome. destruct path; [| reflexivity].
      contradiction Hne. reflexivity. }
    apply emits_only_init. unfold train. apply emits_bind.
    + unfold train_setup. apply emits_bind; [emits_auto | intros _].
      rewrite Hparse. apply emits_ret_bind. rewrite Haso.
      unfold import_feature_module, new_reader, aso_tagger, new_tagger.
      emits_auto.
    + intros [[[o f] r] m]. unfold train_run. emits_auto.
Qed.

(** ** Further properties of [predict] *)

(** X14: [predict] gets to the model only with exactly three arguments,
    none of them [-h] or [--help].  A help flag anywhere, or another number
    of arguments, ends in the usage text on standard output and exit status
    -2 with nothing loaded; the help test comes first, and only the
    wrong count is announced as an error. *)
Theorem predict_usage_errors prog argv h :
  wants_help argv = true \/ length argv <> 3%nat ->
  predict prog argv (init_world h) =
    (Exit (-2),
     World h
       ((if wants_help argv then []
         else [EvPrint Stdout [VStr "Error: wrong number of arguments. "]])
        ++ [EvPrint Stdout [VStr (usage_text prog)]])
       []).
Proof.
  intros Hbad. unfold predict. destruct (wants_help argv); [reflexivity |].
  destruct Hbad as [Hhelp | Hlen]; [discriminate Hhelp |].
  destruct argv as [| a [| b [| c [| d argv]]]]; try reflexivity.
  contradiction Hlen. reflexivity.
Qed.

(** X15: there is no [finally] around the writer: when
    [write_sent_predictions] raises, the exception leaves [predict] and
    [close()] is not called, so a file opened for the predictions is left
    open. *)
Theorem write_failure_leaves_stream_open prog model_file test_file pred_file
    h h1 model model_use_eph model_use_aso model_lang rd e :
  wants_help [model_file; test_file; pred_file] = false ->
  model_ok model_file test_file h h1 model model_use_eph model_use_aso
    model_lang rd ->
  (pred_file = "-" \/ py_open pred_file "w+" = inr tt) ->
  write_sent_predictions (VRef (new_loc h1)) model (stream_of pred_file)
    false (<[new_loc h1 := rd]> h1) = inl e ->
  predict prog [model_file; test_file; pred_file] (init_world h) =
    (Raise e,
     World (<[new_loc h1 := rd]> h1)
       (predict_events model_file test_file pred_file model model_use_eph
          model_use_aso model_lang (VRef (new_loc h1)))
       [])
  /\ is_closed (stream_of pred_file)
       (predict prog [model_file; test_file; pred_file] (init_world h)).2
     = false.
Proof.
  intros Hhelp Hmodel Hopen Hwrite.
  rewrite (predict_until_write _ _ _ _ _ _ _ _ _ _ _ Hhelp Hmodel Hopen).
  run. rewrite Hwrite. split; reflexivity.
Qed.

(** X16: when the unpickled object lacks [use_eph], [use_aso] or [lang],
    [predict] raises [AttributeError] before it builds the reader: no file
    is opened and the writer is not called. *)
Theorem predict_missing_attribute prog model_file test_file pred_file h h1
    model :
  wants_help [model_file; test_file; pred_file] = false ->
  compressed_load model_file h = inr (h1, model) ->
  getattr h1 model "use_eph" = None \/
  getattr h1 model "use_aso" = None \/
  getattr h1 model "lang" = None ->
  (predict prog [model_file; test_file; pred_file] (init_world h)).1
    = Raise AttributeError
  /\ existsb is_output_work
       (w_trace (predict prog [model_file; test_file; pred_file]
                   (init_world h)).2) = false
  /\ w_heap (predict prog [model_file; test_file; pred_file]
               (init_world h)).2 = h1.
Proof.
  intros Hhelp Hload Hmiss. unfold predict. rewrite Hhelp. run.
  rewrite Hload. run.
  destruct (getattr h1 model "use_eph") as [ue |]; [| repeat split].
  run. destruct (getattr h1 model "use_aso") as [ua |]; [| repeat split].
  run. destruct Hmiss as [Hmiss | [Hmiss | Hmiss]]; try discriminate Hmiss.
  rewrite Hmiss. repeat split.
Qed.

(** X17: in every run on three arguments, [predict] loads nothing but
    [MODEL_FILE] and builds no reader but the one on [TEST_FILE]. *)
Theorem predict_reads_only prog model_file test_file pred_file h :
  Forall (reads_files model_file test_file)
    (w_trace (predict prog [model_file; test_file; pred_file]
                (init_world h)).2).
Proof.
  apply emits_only_init. unfold predict, usage, new_reader, pred_stream.
  emits_auto.
Qed.

Lemma stream_eqb_eq a b : stream_eqb a b = true -> a = b.
Proof.
  destruct a, b; cbn; intros Heq; try discriminate Heq; try reflexivity.
  apply String.eqb_eq in Heq. subst. reflexivity.
Qed.

Lemma predict_closes_only prog model_file test_file pred_file :
  closes_only (fun s => s = stream_of pred_file)
    (predict prog [model_file; test_file; pred_file]).
Proof.
  unfold predict. destruct (wants_help _).
  - unfold usage. closes_auto.
  - do 11 (apply closes_bind; [unfold new_reader; closes_auto | intros ?]).
    eapply closes_bind_returns; [| apply pred_stream_returns |].
    + unfold pred_stream. closes_auto.
    + intros f ->. closes_auto. reflexivity.
Qed.

(** X18: [predict] closes no stream but the one [PRED_FILE] names: any
    other stream, standard error among them, is closed after the run
    exactly if it was closed before. *)
Theorem predict_closes_no_other_stream prog model_file test_file pred_file
    s w :
  s <> stream_of pred_file ->
  is_closed s (predict prog [model_file; test_file; pred_file] w).2
    = is_closed s w.
Proof.
  intros Hne.
  destruct (predict_closes_only prog model_file test_file pred_file w)
    as (l & Hl & HS).
  assert (Hnone : existsb (stream_eqb s) l = false).
  { clear Hl. induction HS as [| s' l Hs' _ IH]; [reflexivity |].
    cbn. rewrite IH, orb_false_r.
    destruct (stream_eqb s s') eqn:Heq; [| reflexivity].
    apply stream_eqb_eq in Heq. congruence. }
  unfold is_closed. rewrite Hl, existsb_app, Hnone. reflexivity.
Qed.

End Scripts.

(** ** The ASO model against the command line *)

(** C4: with [--aso path],
    - [train] still imports the feature module first: if the import raises
      [ImportError] the process exits with -2 and the ASO model is never
      loaded;
    - the run is the same whatever [fd] and [hd] the imported module
      provides and whatever value [--min-count] has;
    - the tagger is constructed from the ASO model's [fd], [hd] and [lang],
      feature extraction is never called, and [V], [T], [minc] and
      [use_eph] of the tagger are the ASO model's. *)
Theorem aso_model_configures_tagger
    parse_args py_import Conll03Reader compressed_load compressed_dump
    GreedySVMTagger feature_extraction tagger_train describe iterinstances
    dataset_n cmdline options f_train f_model path h :
  parse_args train_args_parser cmdline = inr (options, [f_train; f_model]) ->
  aso_given options = Some path ->
  (py_import ("nut.ner.features." +:+ feature_module options)
     = inl ImportError ->
   (train parse_args py_import Conll03Reader compressed_load compressed_dump
      GreedySVMTagger feature_extraction tagger_train describe iterinstances
      dataset_n cmdline (init_world h)).1 = Exit (-2)
   /\ existsb is_load
        (w_trace
           (train parse_args py_import Conll03Reader compressed_load
              compressed_dump GreedySVMTagger feature_extraction tagger_train
              describe iterinstances dataset_n cmdline (init_world h)).2)
      = false)
  /\ (forall md fd hd parse_args' py_import' md' fd' hd' k,
        py_import ("nut.ner.features." +:+ feature_module options) = inr md ->
        md !! "fd" = Some fd ->
        md !! "hd" = Some hd ->
        parse_args' train_args_parser cmdline
          = inr (set_minc k options, [f_train; f_model]) ->
        py_import' ("nut.ner.features." +:+ feature_module options)
          = inr md' ->
        md' !! "fd" = Some fd' ->
        md' !! "hd" = Some hd' ->
        train parse_args' py_import' Conll03Reader compressed_load
          compressed_dump GreedySVMTagger feature_extraction tagger_train
          describe iterinstances dataset_n cmdline (init_world h)
        = train parse_args py_import Conll03Reader compressed_load
            compressed_dump GreedySVMTagger feature_extraction tagger_train
            describe iterinstances dataset_n cmdline (init_world h))
  /\ (forall md fd hd rd h2 aso_model a d,
        front_ok parse_args py_import Conll03Reader cmdline options f_train
          f_model md fd hd rd ->
        aso_ok compressed_load GreedySVMTagger options (<[new_loc h := rd]> h)
          path h2 aso_model a d ->
        py_eq (VBool (use_eph options)) (a_use_eph a) = true ->
        py_eq (VStr (lang options)) (a_lang a) = true ->
        exists w',
          train_setup parse_args py_import Conll03Reader compressed_load
            GreedySVMTagger feature_extraction cmdline (init_world h)
          = (Ret (options, f_model, VRef (new_loc h), VRef (new_loc h2)), w')
          /\ w_trace w' =
               front_events options cmdline f_train
                 ++ aso_prologue options path (a_fd a) (a_hd a) (a_lang a)
                 ++ binding_events (VRef (new_loc h2)) aso_model a
          /\ w_heap w' = <[new_loc h2 := bound_tagger d aso_model a]> h2
          /\ existsb is_training_step (w_trace w') = false
          /\ getattr (w_heap w') (VRef (new_loc h2)) "V"
               = Some (a_vocabulary a)
          /\ getattr (w_heap w') (VRef (new_loc h2)) "T" = Some (a_tags a)
          /\ getattr (w_heap w') (VRef (new_loc h2)) "minc"
               = Some (a_minc a)
          /\ getattr (w_heap w') (VRef (new_loc h2)) "use_eph"
               = Some (a_use_eph a)).
Proof.
  intros Hparse Haso. split; [| split].
  - intros Himp.
    rewrite (train_import_failed _ _ _ _ _ _ _ _ _ _ _ _ _ _ _ _
               Hparse Himp).
    split; reflexivity.
  - intros md fd hd parse_args' py_import' md' fd' hd' k Himp Hfd Hhd
      Hparse' Himp' Hfd' Hhd'.
    rewrite (train_aso_after_import parse_args py_import _ _ _ _ _ _ _ _ _
               _ _ _ _ _ _ _ path h Hparse Himp Hfd Hhd Haso).
    rewrite (train_aso_after_import parse_args' py_import' _ _ _ _ _ _ _ _ _
               _ _ _ _ _ _ _ path h Hparse' Himp' Hfd' Hhd' Haso).
    reflexivity.
  - intros md fd hd rd h2 aso_model a d Hfront Hok Heph Hlang.
    assert (Hsetup := train_setup_aso_ok _ _ _ _ _ feature_extraction _ _ _ _
                        _ _ _ _ h _ _ _ _ _ Hfront Hok).
    unfold py_ne in Hsetup. rewrite Heph, Hlang in Hsetup.
    specialize (Hsetup eq_refl eq_refl).
    eexists. split; [exact Hsetup |]. cbn [w_trace w_heap].
    split; [reflexivity |]. split; [reflexivity |]. split; [reflexivity |].
    rewrite !getattr_insert_eq. unfold bound_tagger.
    repeat split; by simplify_map_eq.
Qed.

(** ** The claims on the small installation *)

Abbreviation demo_train :=
  (train Demo.parse_args Demo.py_import Demo.Conll03Reader
     Demo.compressed_load Demo.compressed_dump Demo.GreedySVMTagger
     Demo.feature_extraction Demo.tagger_train Demo.describe
     Demo.iterinstances Demo.dataset_n).

Abbreviation demo_train_setup :=
  (train_setup Demo.parse_args Demo.py_import Demo.Conll03Reader
     Demo.compressed_load Demo.GreedySVMTagger Demo.feature_extraction).

Abbreviation demo_predict :=
  (predict Demo.Conll03Reader Demo.compressed_load Demo.py_open
     Demo.write_sent_predictions).

(** [train -f nosuch train.conll out.model]: there is no feature module
    [nosuch]. *)
Lemma import_failure_exits_witness :
  Demo.parse_args train_args_parser
    ["-f"; "nosuch"; "train.conll"; "out.model"]
    = inr (Demo.set_feature_module "nosuch" train_args_parser,
           ["train.conll"; "out.model"])
  /\ Demo.py_import "nut.ner.features.nosuch" = inl ImportError
  /\ (demo_train ["-f"; "nosuch"; "train.conll"; "out.model"]
        (init_world Demo.heap0)).1 = Exit (-2).
Proof.
  split; [reflexivity |]. split; [reflexivity |].
  refine (f_equal fst (proj1 (import_failure_exits
    Demo.parse_args Demo.py_import Demo.Conll03Reader Demo.compressed_load
    Demo.compressed_dump Demo.GreedySVMTagger Demo.feature_extraction
    Demo.tagger_train Demo.describe Demo.iterinstances Demo.dataset_n
    ["-f"; "nosuch"; "train.conll"; "out.model"]
    (Demo.set_feature_module "nosuch" train_args_parser)
    "train.conll" "out.model" Demo.heap0 _ _))); reflexivity.
Defined.


(** [train --aso aso.model train.conll out.model]: the ASO model was
    trained with EPH, the command line does not ask for it. *)
Lemma aso_mismatch_is_fatal_witness :
  front_ok Demo.parse_args Demo.py_import Demo.Conll03Reader
    ["--aso"; "aso.model"; "train.conll"; "out.model"]
    (Demo.set_aso "aso.model" train_args_parser) "train.conll" "out.model"
    Demo.rr09 (VRef 0%nat) (VRef 1%nat)
    (Demo.reader_dict "train.conll" (VStr "en"))
  /\ (demo_train ["--aso"; "aso.model"; "train.conll"; "out.model"]
        (init_world Demo.heap0)).1 = Raise use_eph_mismatch.
Proof.
  split; [repeat split |].
  refine (proj1 (aso_mismatch_is_fatal
    Demo.parse_args Demo.py_import Demo.Conll03Reader Demo.compressed_load
    Demo.compressed_dump Demo.GreedySVMTagger Demo.feature_extraction
    Demo.tagger_train Demo.describe Demo.iterinstances Demo.dataset_n
    ["--aso"; "aso.model"; "train.conll"; "out.model"]
    (Demo.set_aso "aso.model" train_args_parser) "train.conll" "out.model"
    Demo.rr09 (VRef 0%nat) (VRef 1%nat)
    (Demo.reader_dict "train.conll" (VStr "en")) Demo.heap0 "aso.model"
    (Demo.load_aso Demo.heap1).1 (Demo.load_aso Demo.heap1).2
    (Demo.aso_objects Demo.heap1).2
    (Demo.tagger_dict (VRef 0%nat) (VRef 1%nat) (VStr "en") 1) _ _ _)).
  - repeat split.
  - repeat split.
  - reflexivity.
Defined.

(** The same run: the tagger is as the constructor left it. *)
Lemma failed_binding_attaches_nothing_witness :
  aso_ok Demo.compressed_load Demo.GreedySVMTagger
    (Demo.set_aso "aso.model" train_args_parser) Demo.heap1 "aso.model"
    (Demo.load_aso Demo.heap1).1 (Demo.load_aso Demo.heap1).2
    (Demo.aso_objects Demo.heap1).2
    (Demo.tagger_dict (VRef 0%nat) (VRef 1%nat) (VStr "en") 1)
  /\ forall name,
       getattr
         (w_heap (demo_train ["--aso"; "aso.model"; "train.conll"; "out.model"]
                    (init_world Demo.heap0)).2)
         (VRef (new_loc (Demo.load_aso Demo.heap1).1)) name
       = Demo.tagger_dict (VRef 0%nat) (VRef 1%nat) (VStr "en") 1 !! name.
Proof.
  split; [repeat split |].
  refine (proj1 (proj2 (failed_binding_attaches_nothing
    Demo.parse_args Demo.py_import Demo.Conll03Reader Demo.compressed_load
    Demo.compressed_dump Demo.GreedySVMTagger Demo.feature_extraction
    Demo.tagger_train Demo.describe Demo.iterinstances Demo.dataset_n
    ["--aso"; "aso.model"; "train.conll"; "out.model"]
    (Demo.set_aso "aso.model" train_args_parser) "train.conll" "out.model"
    Demo.rr09 (VRef 0%nat) (VRef 1%nat)
    (Demo.reader_dict "train.conll" (VStr "en")) Demo.heap0 "aso.model"
    (Demo.load_aso Demo.heap1).1 (Demo.load_aso Demo.heap1).2
    (Demo.aso_objects Demo.heap1).2
    (Demo.tagger_dict (VRef 0%nat) (VRef 1%nat) (VStr "en") 1) _ _ _))).
  - repeat split.
  - repeat split.
  - reflexivity.
Defined.

(** [train --aso aso.model --eph train.conll out.model]: language and EPH
    agree with the ASO model. *)
Lemma aso_binding_by_reference_witness :
  py_eq (VBool true) (a_use_eph (Demo.aso_objects Demo.heap1).2) = true
  /\ py_eq (VStr "en") (a_lang (Demo.aso_objects Demo.heap1).2) = true
  /\ exists w',
       demo_train_setup
         ["--aso"; "aso.model"; "--eph"; "train.conll"; "out.model"]
         (init_world Demo.heap0)
       = (Ret (Demo.set_use_eph (Demo.set_aso "aso.model" train_args_parser),
               "out.model", VRef (new_loc Demo.heap0),
               VRef (new_loc (Demo.load_aso Demo.heap1).1)), w')
       /\ getattr (w_heap w') (VRef (new_loc (Demo.load_aso Demo.heap1).1))
            "V"
          = getattr (w_heap w') (Demo.load_aso Demo.heap1).2 "vocabulary".
Proof.
  split; [reflexivity |]. split; [reflexivity |].
  destruct (aso_binding_by_reference
    Demo.parse_args Demo.py_import Demo.Conll03Reader Demo.compressed_load
    Demo.compressed_dump Demo.GreedySVMTagger Demo.feature_extraction
    Demo.tagger_train Demo.describe Demo.iterinstances Demo.dataset_n
    ["--aso"; "aso.model"; "--eph"; "train.conll"; "out.model"]
    (Demo.set_use_eph (Demo.set_aso "aso.model" train_args_parser))
    "train.conll" "out.model"
    Demo.rr09 (VRef 0%nat) (VRef 1%nat)
    (Demo.reader_dict "train.conll" (VStr "en")) Demo.heap0 "aso.model"
    (Demo.load_aso Demo.heap1).1 (Demo.load_aso Demo.heap1).2
    (Demo.aso_objects Demo.heap1).2
    (Demo.tagger_dict (VRef 0%nat) (VRef 1%nat) (VStr "en") 1))
    as (w' & Hsetup & _ & HV & _ & _ & _ & _ & _ & _ & _ & Hfields & _).
  - repeat split.
  - repeat split.
  - reflexivity.
  - reflexivity.
  - exists w'. split; [exact Hsetup |].
    destruct Hfields as (_ & _ & _ & _ & _ & Hvoc & _).
    rewrite HV, Hvoc. reflexivity.
Defined.

(** The same command line on an installation whose [rr09] provides other
    functions and whose parser reports a minimum count of 7, and on one
    without [rr09]. *)
Lemma aso_model_configures_tagger_witness :
  Demo.parse_args train_args_parser
    ["--aso"; "aso.model"; "--eph"; "train.conll"; "out.model"]
  = inr (Demo.set_use_eph (Demo.set_aso "aso.model" train_args_parser),
         ["train.conll"; "out.model"])
  /\ aso_given (Demo.set_use_eph (Demo.set_aso "aso.model" train_args_parser))
     = Some "aso.model"
  /\ train (Demo.parse_args_minc 7) Demo.py_import_other Demo.Conll03Reader
       Demo.compressed_load Demo.compressed_dump Demo.GreedySVMTagger
       Demo.feature_extraction Demo.tagger_train Demo.describe
       Demo.iterinstances Demo.dataset_n
       ["--aso"; "aso.model"; "--eph"; "train.conll"; "out.model"]
       (init_world Demo.heap0)
     = demo_train ["--aso"; "aso.model"; "--eph"; "train.conll"; "out.model"]
         (init_world Demo.heap0)
  /\ (train Demo.parse_args Demo.py_import_none Demo.Conll03Reader
        Demo.compressed_load Demo.compressed_dump Demo.GreedySVMTagger
        Demo.feature_extraction Demo.tagger_train Demo.describe
        Demo.iterinstances Demo.dataset_n
        ["--aso"; "aso.model"; "--eph"; "train.conll"; "out.model"]
        (init_world Demo.heap0)).1 = Exit (-2).
Proof.
  split; [reflexivity |]. split; [reflexivity |]. split.
  - refine (proj1 (proj2 (aso_model_configures_tagger
      Demo.parse_args Demo.py_import Demo.Conll03Reader Demo.compressed_load
      Demo.compressed_dump Demo.GreedySVMTagger Demo.feature_extraction
      Demo.tagger_train Demo.describe Demo.iterinstances Demo.dataset_n
      ["--aso"; "aso.model"; "--eph"; "train.conll"; "out.model"]
      (Demo.set_use_eph (Demo.set_aso "aso.model" train_args_parser))
      "train.conll" "out.model" "aso.model" Demo.heap0 _ _))
      Demo.rr09 (VRef 0%nat) (VRef 1%nat)
      (Demo.parse_args_minc 7) Demo.py_import_other
      Demo.rr09_other (VRef 1%nat) (VRef 0%nat) 7 _ _ _ _ _ _ _);
      reflexivity.
  - refine (proj1 (proj1 (aso_model_configures_tagger
      Demo.parse_args Demo.py_import_none Demo.Conll03Reader
      Demo.compressed_load Demo.compressed_dump Demo.GreedySVMTagger
      Demo.feature_extraction Demo.tagger_train Demo.describe
      Demo.iterinstances Demo.dataset_n
      ["--aso"; "aso.model"; "--eph"; "train.conll"; "out.model"]
      (Demo.set_use_eph (Demo.set_aso "aso.model" train_args_parser))
      "train.conll" "out.model" "aso.model" Demo.heap0 _ _) _));
      reflexivity.
Defined.

(** [train train.conll out.model] *)
Lemma feature_extraction_then_training_witness :
  front_ok Demo.parse_args Demo.py_import Demo.Conll03Reader
    ["train.conll"; "out.model"] train_args_parser "train.conll" "out.model"
    Demo.rr09 (VRef 0%nat) (VRef 1%nat)
    (Demo.reader_dict "train.conll" (VStr "en"))
  /\ (exists rest,
       w_trace (demo_train ["train.conll"; "out.model"]
                  (init_world Demo.heap0)).2 =
         front_events train_args_parser ["train.conll"; "out.model"]
           "train.conll"
         ++ [EvNewTagger (VRef 0%nat) (VRef 1%nat) (VStr "en") 1;
             EvFeatureExtraction (VRef (new_loc Demo.heap1))
               (VRef (new_loc Demo.heap0)) 1 false;
             EvTrain (VRef (new_loc Demo.heap1)) (VRef (new_loc Demo.heap0))
               (1 # 100000)%Q 100 false]
         ++ rest
       /\ Forall (fun ev => is_training_step ev = false) rest)
  /\ getattr
       (w_heap (demo_train ["train.conll"; "out.model"]
                  (init_world Demo.heap0)).2)
       (VRef (new_loc Demo.heap1)) "epochs" = Some (VInt 100).
Proof.
  split; [repeat split |].
  pose (d := Demo.tagger_dict (VRef 0%nat) (VRef 1%nat) (VStr "en") 1).
  pose (h3 := default ∅
                (h' ← setattr (<[new_loc Demo.heap1 := d]> Demo.heap1)
                        (VRef (new_loc Demo.heap1)) "minc" (VInt 1);
                 setattr h' (VRef (new_loc Demo.heap1)) "use_eph"
                   (VBool false))).
  pose (h4 := default ∅
                (setattr h3 (VRef (new_loc Demo.heap1)) "epochs"
                   (VInt 100))).
  assert (Hfront : front_ok Demo.parse_args Demo.py_import Demo.Conll03Reader
    ["train.conll"; "out.model"] train_args_parser "train.conll" "out.model"
    Demo.rr09 (VRef 0%nat) (VRef 1%nat)
    (Demo.reader_dict "train.conll" (VStr "en"))) by repeat split.
  pose proof (feature_extraction_then_training
    Demo.parse_args Demo.py_import Demo.Conll03Reader Demo.compressed_load
    Demo.compressed_dump Demo.GreedySVMTagger Demo.feature_extraction
    Demo.tagger_train Demo.describe Demo.iterinstances Demo.dataset_n
    ["train.conll"; "out.model"] train_args_parser "train.conll" "out.model"
    Demo.rr09 (VRef 0%nat) (VRef 1%nat)
    (Demo.reader_dict "train.conll" (VStr "en")) Demo.heap0 d
    Hfront eq_refl eq_refl) as (_ & Hnext & _ & Hrun).
  split.
  - apply (Hnext h3). reflexivity.
  - rewrite (Hrun h3 h4); reflexivity.
Defined.

(** [predict ner.model test.conll out.txt] *)
Lemma predictions_go_to_pred_file_witness :
  wants_help ["ner.model"; "test.conll"; "out.txt"] = false
  /\ Forall (writes_to "out.txt")
       (w_trace (demo_predict "ner_predict"
                   ["ner.model"; "test.conll"; "out.txt"]
                   (init_world Demo.heap0)).2)
  /\ In (EvWritePredictions (VRef (new_loc (Demo.load_tagger Demo.heap0).1))
          (Demo.load_tagger Demo.heap0).2 (FileStream "out.txt") false)
       (w_trace (demo_predict "ner_predict"
                   ["ner.model"; "test.conll"; "out.txt"]
                   (init_world Demo.heap0)).2)
  /\ w_closed (demo_predict "ner_predict"
                 ["ner.model"; "test.conll"; "out.txt"]
                 (init_world Demo.heap0)).2 = [FileStream "out.txt"]
  /\ w_closed (demo_predict "ner_predict"
                 ["ner.model"; "test.conll"; "-"]
                 (init_world Demo.heap0)).2 = [Stdout].
Proof.
  split; [reflexivity |]. split; [| split; [| split]].
  - refine (proj1 (predictions_go_to_pred_file
      Demo.Conll03Reader Demo.compressed_load Demo.py_open
      Demo.write_sent_predictions "ner_predict" "ner.model" "test.conll"
      "out.txt" Demo.heap0 _)).
    reflexivity.
  - destruct (proj1 (proj2 (proj2 (predictions_go_to_pred_file
      Demo.Conll03Reader Demo.compressed_load Demo.py_open
      Demo.write_sent_predictions "ner_predict" "ner.model" "test.conll"
      "out.txt" Demo.heap0 eq_refl)))
      (Demo.load_tagger Demo.heap0).1 (Demo.load_tagger Demo.heap0).2
      (VBool true) (VBool false) (VStr "en")
      (Demo.reader_dict "test.conll" (VStr "en")))
      as (rest & Hrest).
    + repeat split.
    + right. reflexivity.
    + rewrite Hrest. apply in_or_app. left.
      unfold predict_events. apply in_or_app. right. apply in_or_app. right.
      right. left. reflexivity.
  - assert (Hmodel : model_ok Demo.Conll03Reader Demo.compressed_load
      "ner.model" "test.conll" Demo.heap0 (Demo.load_tagger Demo.heap0).1
      (Demo.load_tagger Demo.heap0).2 (VBool true) (VBool false) (VStr "en")
      (Demo.reader_dict "test.conll" (VStr "en"))) by repeat split.
    destruct (proj2 (proj2 (proj2 (predictions_go_to_pred_file
      Demo.Conll03Reader Demo.compressed_load Demo.py_open
      Demo.write_sent_predictions "ner_predict" "ner.model" "test.conll"
      "out.txt" Demo.heap0 eq_refl)))
      _ _ _ _ _ _ Hmodel) as (_ & Hfile & _).
    rewrite (Hfile ltac:(discriminate) eq_refl _ eq_refl). reflexivity.
  - assert (Hmodel : model_ok Demo.Conll03Reader Demo.compressed_load
      "ner.model" "test.conll" Demo.heap0 (Demo.load_tagger Demo.heap0).1
      (Demo.load_tagger Demo.heap0).2 (VBool true) (VBool false) (VStr "en")
      (Demo.reader_dict "test.conll" (VStr "en"))) by repeat split.
    destruct (proj2 (proj2 (proj2 (predictions_go_to_pred_file
      Demo.Conll03Reader Demo.compressed_load Demo.py_open
      Demo.write_sent_predictions "ner_predict" "ner.model" "test.conll"
      "-" Demo.heap0 eq_refl)))
      _ _ _ _ _ _ Hmodel) as (Hdash & _).
    rewrite (Hdash eq_refl _ eq_refl). reflexivity.
Defined.

(** [predict ner.model test.conll -h]: the third argument is not ["-"],
    and yet no file named [-h] is opened and nothing is predicted: the
    script prints its usage and exits. *)
Lemma help_flag_as_pred_file_counterexample :
  length ["ner.model"; "test.conll"; "-h"] = 3%nat
  /\ "-h" <> "-"
  /\ (demo_predict "ner_predict" ["ner.model"; "test.conll"; "-h"]
        (init_world Demo.heap0)).1 = Exit (-2)
  /\ existsb is_open
       (w_trace (demo_predict "ner_predict" ["ner.model"; "test.conll"; "-h"]
                   (init_world Demo.heap0)).2) = false
  /\ ~ (exists reader model,
          In (EvWritePredictions reader model (FileStream "-h") false)
            (w_trace (demo_predict "ner_predict"
                        ["ner.model"; "test.conll"; "-h"]
                        (init_world Demo.heap0)).2)).
Proof.
  split; [reflexivity |]. split; [discriminate |].
  split; [reflexivity |]. split; [reflexivity |].
  intros (reader & model & Hin). vm_compute in Hin.
  destruct Hin as [Hin | []]. discriminate Hin.
Qed.

(** [predict missing.model test.conll out.txt] and
    [predict ner.model test.conll /] *)
Lemma predict_failures_propagate_witness :
  wants_help ["missing.model"; "test.conll"; "out.txt"] = false
  /\ Demo.compressed_load "missing.model" Demo.heap0 = inl IOError
  /\ (demo_predict "ner_predict" ["missing.model"; "test.conll"; "out.txt"]
        (init_world Demo.heap0)).1 = Raise IOError
  /\ Demo.py_open "/" "w+" = inl IOError
  /\ (demo_predict "ner_predict" ["ner.model"; "test.conll"; "/"]
        (init_world Demo.heap0)).1 = Raise IOError.
Proof.
  split; [reflexivity |]. split; [reflexivity |]. split.
  - refine (proj1 (proj1 (predict_failures_propagate
      Demo.Conll03Reader Demo.compressed_load Demo.py_open
      Demo.write_sent_predictions "ner_predict" "missing.model" "test.conll"
      "out.txt" Demo.heap0 _) IOError _)); reflexivity.
  - split; [reflexivity |].
    refine (proj1 (proj2 (predict_failures_propagate
      Demo.Conll03Reader Demo.compressed_load Demo.py_open
      Demo.write_sent_predictions "ner_predict" "ner.model" "test.conll"
      "/" Demo.heap0 _) IOError
      (Demo.load_tagger Demo.heap0).1 (Demo.load_tagger Demo.heap0).2
      (VBool true) (VBool false) (VStr "en")
      (Demo.reader_dict "test.conll" (VStr "en")) _ _ _)).
    + reflexivity.
    + repeat split.
    + reflexivity.
    + reflexivity.
Defined.

(** [predict ner.model test.conll -] *)
Lemma predict_closes_output_witness :
  model_ok Demo.Conll03Reader Demo.compressed_load "ner.model" "test.conll"
    Demo.heap0 (Demo.load_tagger Demo.heap0).1 (Demo.load_tagger Demo.heap0).2
    (VBool true) (VBool false) (VStr "en")
    (Demo.reader_dict "test.conll" (VStr "en"))
  /\ is_closed Stdout
       (demo_predict "ner_predict" ["ner.model"; "test.conll"; "-"]
          (init_world Demo.heap0)).2 = true.
Proof.
  split; [repeat split |].
  refine (proj1 (proj2 (proj2 (proj2 (predict_closes_output
    Demo.Conll03Reader Demo.compressed_load Demo.py_open
    Demo.write_sent_predictions "ner_predict" "ner.model" "test.conll" "-"
    Demo.heap0 (Demo.load_tagger Demo.heap0).1 (Demo.load_tagger Demo.heap0).2
    (VBool true) (VBool false) (VStr "en")
    (Demo.reader_dict "test.conll" (VStr "en"))
    (<[new_loc (Demo.load_tagger Demo.heap0).1 :=
         Demo.reader_dict "test.conll" (VStr "en")]>
       (Demo.load_tagger Demo.heap0).1) _ _ _ _))) eq_refl)).
  - reflexivity.
  - repeat split.
  - left. reflexivity.
  - reflexivity.
Defined.

(** ** The further properties on the small installation *)

(** [train train.conll out.model] where [rr09] raises a [SyntaxError]. *)
Lemma other_import_errors_propagate_witness :
  Demo.py_import_broken "nut.ner.features.rr09"
    = inl (OtherError "SyntaxError")
  /\ (train Demo.parse_args Demo.py_import_broken Demo.Conll03Reader
        Demo.compressed_load Demo.compressed_dump Demo.GreedySVMTagger
        Demo.feature_extraction Demo.tagger_train Demo.describe
        Demo.iterinstances Demo.dataset_n ["train.conll"; "out.model"]
        (init_world Demo.heap0)).1 = Raise (OtherError "SyntaxError").
Proof.
  split; [reflexivity |].
  refine (f_equal fst (other_import_errors_propagate
    Demo.parse_args Demo.py_import_broken Demo.Conll03Reader
    Demo.compressed_load Demo.compressed_dump Demo.GreedySVMTagger
    Demo.feature_extraction Demo.tagger_train Demo.describe
    Demo.iterinstances Demo.dataset_n ["train.conll"; "out.model"]
    train_args_parser "train.conll" "out.model" (OtherError "SyntaxError")
    Demo.heap0 _ _ _)).
  - reflexivity.
  - reflexivity.
  - discriminate.
Defined.

(** [train train.conll out.model] where [rr09] has no [hd]. *)
Lemma module_without_extractors_witness :
  Demo.rr09_partial !! "hd" = None
  /\ (train Demo.parse_args Demo.py_import_partial Demo.Conll03Reader
        Demo.compressed_load Demo.compressed_dump Demo.GreedySVMTagger
        Demo.feature_extraction Demo.tagger_train Demo.describe
        Demo.iterinstances Demo.dataset_n ["train.conll"; "out.model"]
        (init_world Demo.heap0)).1 = Raise AttributeError.
Proof.
  split; [reflexivity |].
  refine (f_equal fst (module_without_extractors
    Demo.parse_args Demo.py_import_partial Demo.Conll03Reader
    Demo.compressed_load Demo.compressed_dump Demo.GreedySVMTagger
    Demo.feature_extraction Demo.tagger_train Demo.describe
    Demo.iterinstances Demo.dataset_n ["train.conll"; "out.model"]
    train_args_parser "train.conll" "out.model" Demo.rr09_partial
    Demo.heap0 _ _ _)).
  - reflexivity.
  - reflexivity.
  - right. reflexivity.
Defined.

(** [train --aso aso.model missing.conll out.model] *)
Lemma reader_failure_stops_train_witness :
  Demo.Conll03Reader "missing.conll" (VStr "en") = inl IOError
  /\ demo_train ["--aso"; "aso.model"; "missing.conll"; "out.model"]
       (init_world Demo.heap0)
     = (Raise IOError,
        World Demo.heap0
          (front_events (Demo.set_aso "aso.model" train_args_parser)
             ["--aso"; "aso.model"; "missing.conll"; "out.model"]
             "missing.conll")
          []).
Proof.
  split; [reflexivity |].
  refine (reader_failure_stops_train
    Demo.parse_args Demo.py_import Demo.Conll03Reader Demo.compressed_load
    Demo.compressed_dump Demo.GreedySVMTagger Demo.feature_extraction
    Demo.tagger_train Demo.describe Demo.iterinstances Demo.dataset_n
    ["--aso"; "aso.model"; "missing.conll"; "out.model"]
    (Demo.set_aso "aso.model" train_args_parser) "missing.conll" "out.model"
    Demo.rr09 (VRef 0%nat) (VRef 1%nat) IOError Demo.heap0 _ _ _ _ _);
    reflexivity.
Defined.

(** [train --aso nosuch.model train.conll out.model] *)
Lemma aso_load_failure_witness :
  Demo.compressed_load "nosuch.model" Demo.heap1 = inl IOError
  /\ (demo_train ["--aso"; "nosuch.model"; "train.conll"; "out.model"]
        (init_world Demo.heap0)).1 = Raise IOError.
Proof.
  split; [reflexivity |].
  refine (f_equal fst (aso_load_failure
    Demo.parse_args Demo.py_import Demo.Conll03Reader Demo.compressed_load
    Demo.compressed_dump Demo.GreedySVMTagger Demo.feature_extraction
    Demo.tagger_train Demo.describe Demo.iterinstances Demo.dataset_n
    ["--aso"; "nosuch.model"; "train.conll"; "out.model"]
    (Demo.set_aso "nosuch.model" train_args_parser) "train.conll" "out.model"
    Demo.rr09 (VRef 0%nat) (VRef 1%nat)
    (Demo.reader_dict "train.conll" (VStr "en")) "nosuch.model" IOError
    Demo.heap0 _ _ _)).
  - repeat split.
  - reflexivity.
  - reflexivity.
Defined.

(** [train --aso ner.model train.conll out.model]: the pickle is a tagger,
    not an ASO model. *)
Lemma aso_without_extractors_witness :
  getattr (Demo.load_tagger Demo.heap1).1 (Demo.load_tagger Demo.heap1).2 "fd"
    = None
  /\ (demo_train ["--aso"; "ner.model"; "train.conll"; "out.model"]
        (init_world Demo.heap0)).1 = Raise AttributeError.
Proof.
  split; [reflexivity |].
  refine (f_equal fst (aso_without_extractors
    Demo.parse_args Demo.py_import Demo.Conll03Reader Demo.compressed_load
    Demo.compressed_dump Demo.GreedySVMTagger Demo.feature_extraction
    Demo.tagger_train Demo.describe Demo.iterinstances Demo.dataset_n
    ["--aso"; "ner.model"; "train.conll"; "out.model"]
    (Demo.set_aso "ner.model" train_args_parser) "train.conll" "out.model"
    Demo.rr09 (VRef 0%nat) (VRef 1%nat)
    (Demo.reader_dict "train.conll" (VStr "en")) "ner.model"
    (Demo.load_tagger Demo.heap1).1 (Demo.load_tagger Demo.heap1).2
    Demo.heap0 _ _ _ _)).
  - repeat split.
  - reflexivity.
  - reflexivity.
  - left. reflexivity.
Defined.

(** [train --aso aso.model --eph train.conll out.model] on the pickle that
    has lost its tag set. *)
Lemma binding_is_not_atomic_witness :
  getattr (Demo.load_aso_truncated Demo.heap1).1
    (Demo.load_aso_truncated Demo.heap1).2 "tags" = None
  /\ (train Demo.parse_args Demo.py_import Demo.Conll03Reader
        Demo.compressed_load_truncated Demo.compressed_dump
        Demo.GreedySVMTagger Demo.feature_extraction Demo.tagger_train
        Demo.describe Demo.iterinstances Demo.dataset_n
        ["--aso"; "aso.model"; "--eph"; "train.conll"; "out.model"]
        (init_world Demo.heap0)).1 = Raise AttributeError.
Proof.
  split; [reflexivity |].
  refine (f_equal fst (binding_is_not_atomic
    Demo.parse_args Demo.py_import Demo.Conll03Reader
    Demo.compressed_load_truncated Demo.compressed_dump Demo.GreedySVMTagger
    Demo.feature_extraction Demo.tagger_train Demo.describe
    Demo.iterinstances Demo.dataset_n
    ["--aso"; "aso.model"; "--eph"; "train.conll"; "out.model"]
    (Demo.set_use_eph (Demo.set_aso "aso.model" train_args_parser))
    "train.conll" "out.model" Demo.rr09 (VRef 0%nat) (VRef 1%nat)
    (Demo.reader_dict "train.conll" (VStr "en")) "aso.model"
    (Demo.load_aso_truncated Demo.heap1).1
    (Demo.load_aso_truncated Demo.heap1).2
    (VRef 0%nat) (VRef 1%nat) (VStr "en") (VBool true)
    (a_vocabulary (Demo.aso_objects Demo.heap1).2)
    (Demo.tagger_dict (VRef 0%nat) (VRef 1%nat) (VStr "en") 1)
    Demo.heap0 _ _ _ _ _ _ _ _ _ _ _ _)).
  - repeat split.
  - reflexivity.
  - reflexivity.
  - reflexivity.
  - reflexivity.
  - reflexivity.
  - reflexivity.
  - reflexivity.
  - reflexivity.
  - reflexivity.
  - reflexivity.
  - reflexivity.
Defined.


(** [train train.conll out.model] with a learner that runs out of
    memory. *)
Lemma failed_training_saves_nothing_witness :
  Forall (fun ev => is_dump ev = false)
    (w_trace
       (train Demo.parse_args Demo.py_import Demo.Conll03Reader
          Demo.compressed_load Demo.compressed_dump Demo.GreedySVMTagger
          Demo.feature_extraction Demo.tagger_train_failing Demo.describe
          Demo.iterinstances Demo.dataset_n ["train.conll"; "out.model"]
          (init_world Demo.heap0)).2).
Proof.
  refine (proj2 (failed_training_saves_nothing
    Demo.parse_args Demo.py_import Demo.Conll03Reader Demo.compressed_load
    Demo.compressed_dump Demo.GreedySVMTagger Demo.feature_extraction
    Demo.tagger_train_failing Demo.describe Demo.iterinstances Demo.dataset_n
    ["train.conll"; "out.model"] train_args_parser "out.model"
    (VRef (new_loc Demo.heap0)) (VRef (new_loc Demo.heap1))
    (demo_train_setup ["train.conll"; "out.model"] (init_world Demo.heap0)).2
    (OtherError "MemoryError") Demo.heap0 _ _)).
  - reflexivity.
  - reflexivity.
Defined.

(** [train --stats train.conll out.model] on a tagger whose dataset is
    empty. *)
Lemma stats_on_empty_dataset_witness :
  Demo.dataset_n_empty (VRef (new_loc Demo.heap1)) Demo.heap0 = inr 0
  /\ (train Demo.parse_args Demo.py_import Demo.Conll03Reader
        Demo.compressed_load Demo.compressed_dump Demo.GreedySVMTagger
        Demo.feature_extraction Demo.tagger_train Demo.describe
        Demo.iterinstances_empty Demo.dataset_n_empty
        ["--stats"; "train.conll"; "out.model"]
        (init_world Demo.heap0)).1 = Raise ZeroDivisionError.
Proof.
  split; [reflexivity |].
  pose (w' := (demo_train_setup ["--stats"; "train.conll"; "out.model"]
                 (init_world Demo.heap0)).2).
  pose (h1 := default ∅ (setattr (w_heap w') (VRef (new_loc Demo.heap1))
                           "epochs" (VInt 100))).
  refine (f_equal fst (proj1 (stats_on_empty_dataset
    Demo.parse_args Demo.py_import Demo.Conll03Reader Demo.compressed_load
    Demo.compressed_dump Demo.GreedySVMTagger Demo.feature_extraction
    Demo.tagger_train Demo.describe Demo.iterinstances_empty
    Demo.dataset_n_empty ["--stats"; "train.conll"; "out.model"]
    (Demo.set_stats train_args_parser) "out.model"
    (VRef (new_loc Demo.heap0)) (VRef (new_loc Demo.heap1))
    w' h1 h1 [] Demo.heap0 _ _ _ _ _ _)));
    reflexivity.
Defined.

(** [train train.conll out.model]: no [--stats]. *)
Lemma no_stats_no_report_witness :
  stats train_args_parser = false
  /\ Forall (fun ev => is_report ev = false)
       (w_trace (demo_train ["train.conll"; "out.model"]
                   (init_world Demo.heap0)).2).
Proof.
  split; [reflexivity |].
  refine (no_stats_no_report
    Demo.parse_args Demo.py_import Demo.Conll03Reader Demo.compressed_load
    Demo.compressed_dump Demo.GreedySVMTagger Demo.feature_extraction
    Demo.tagger_train Demo.describe Demo.iterinstances Demo.dataset_n
    ["train.conll"; "out.model"] train_args_parser "train.conll" "out.model"
    Demo.heap0 _ _); reflexivity.
Defined.

(** [train --aso '' train.conll out.model]: the option is there and is
    empty. *)
Lemma aso_option_selects_branch_witness :
  aso (Demo.set_aso EmptyString train_args_parser) = Some EmptyString
  /\ Forall (fun ev => is_load ev = false /\ is_set_attr ev = false)
       (w_trace (demo_train ["--aso"; EmptyString; "train.conll"; "out.model"]
                   (init_world Demo.heap0)).2).
Proof.
  split; [reflexivity |].
  refine (proj1 (aso_option_selects_branch
    Demo.parse_args Demo.py_import Demo.Conll03Reader Demo.compressed_load
    Demo.compressed_dump Demo.GreedySVMTagger Demo.feature_extraction
    Demo.tagger_train Demo.describe Demo.iterinstances Demo.dataset_n
    ["--aso"; EmptyString; "train.conll"; "out.model"]
    (Demo.set_aso EmptyString train_args_parser) "train.conll" "out.model"
    Demo.heap0 _) _).
  - reflexivity.
  - right. reflexivity.
Defined.

(** [predict ner.model --help a b] and [predict ner.model] *)
Lemma predict_usage_errors_witness :
  (demo_predict "ner_predict" ["ner.model"; "--help"; "a"; "b"]
     (init_world Demo.heap0)).1 = Exit (-2)
  /\ (demo_predict "ner_predict" ["ner.model"] (init_world Demo.heap0)).1
     = Exit (-2).
Proof.
  split.
  - refine (f_equal fst (predict_usage_errors
      Demo.Conll03Reader Demo.compressed_load Demo.py_open
      Demo.write_sent_predictions "ner_predict"
      ["ner.model"; "--help"; "a"; "b"] Demo.heap0 _)).
    left. reflexivity.
  - refine (f_equal fst (predict_usage_errors
      Demo.Conll03Reader Demo.compressed_load Demo.py_open
      Demo.write_sent_predictions "ner_predict" ["ner.model"] Demo.heap0 _)).
    right. cbn. lia.
Defined.

(** [predict ner.model test.conll out.txt] on a full disk. *)
Lemma write_failure_leaves_stream_open_witness :
  is_closed (FileStream "out.txt")
    (predict Demo.Conll03Reader Demo.compressed_load Demo.py_open
       Demo.write_failing "ner_predict"
       ["ner.model"; "test.conll"; "out.txt"] (init_world Demo.heap0)).2
  = false.
Proof.
  refine (proj2 (write_failure_leaves_stream_open
    Demo.Conll03Reader Demo.compressed_load Demo.py_open Demo.write_failing
    "ner_predict" "ner.model" "test.conll" "out.txt" Demo.heap0
    (Demo.load_tagger Demo.heap0).1 (Demo.load_tagger Demo.heap0).2
    (VBool true) (VBool false) (VStr "en")
    (Demo.reader_dict "test.conll" (VStr "en")) IOError _ _ _ _)).
  - reflexivity.
  - repeat split.
  - right. reflexivity.
  - reflexivity.
Defined.

(** [predict aso.model test.conll out.txt]: an ASO model has no
    [use_aso]. *)
Lemma predict_missing_attribute_witness :
  getattr (Demo.load_aso Demo.heap0).1 (Demo.load_aso Demo.heap0).2 "use_aso"
    = None
  /\ (demo_predict "ner_predict" ["aso.model"; "test.conll"; "out.txt"]
        (init_world Demo.heap0)).1 = Raise AttributeError.
Proof.
  split; [reflexivity |].
  refine (proj1 (predict_missing_attribute
    Demo.Conll03Reader Demo.compressed_load Demo.py_open
    Demo.write_sent_predictions "ner_predict" "aso.model" "test.conll"
    "out.txt" Demo.heap0 (Demo.load_aso Demo.heap0).1
    (Demo.load_aso Demo.heap0).2 _ _ _)).
  - reflexivity.
  - reflexivity.
  - right. left. reflexivity.
Defined.

(** [predict ner.model test.conll -] leaves standard error open. *)
Lemma predict_closes_no_other_stream_witness :
  Stderr <> stream_of "-"
  /\ is_closed Stderr
       (demo_predict "ner_predict" ["ner.model"; "test.conll"; "-"]
          (init_world Demo.heap0)).2 = false.
Proof.
  split; [discriminate |].
  refine (predict_closes_no_other_stream
    Demo.Conll03Reader Demo.compressed_load Demo.py_open
    Demo.write_sent_predictions "ner_predict" "ner.model" "test.conll" "-"
    Stderr (init_world Demo.heap0) _).
  discriminate.
Defined.
